(** * EVVOS provisioning server (RaspberryPiZero2W/provision_server.py)

    A shallow embedding of the Flask provisioning handler and of the
    helpers it calls.  The handler talks to the operating system (shell
    commands, files, sleeping) and to the remote edge function; all of this
    is kept explicit:

    - the [world] carries the files the program writes itself and the
      [history] of every external interaction it has issued so far;
    - the operating system and the network are an oracle ([platform]) that
      answers every interaction as a function of the history, so that a
      command may fail the first time and succeed the second;
    - Python exceptions are values of [exn]; a computation [M A] returns
      either a value or a raised exception together with the new world, and
      [try_except] is Python's [try]/[except].

    The [files] of the world are the files the program opens itself: the
    temporary join configuration and the two markers.  What the commands it
    issues do to the rest of the file system (the copy of line 126 writes
    /etc/wpa_supplicant/wpa_supplicant.conf) is not part of the world; the
    commands appear in the [history] only.

    Console output ([print]) is not part of the modelled state either, but
    a [print] of request text can raise, and that is modelled: text is
    encoded as UTF-8, which fails on a surrogate code point.  Only the
    progress lines 104 to 106 print text of the request as it came; every
    other line prints constant text, a number, or the text of a response or
    of an exception, none of which holds a surrogate. *)

From Stdlib Require Import String Ascii ZArith NArith List Bool Lia.
From Stdlib Require Import Floats.PrimFloat.
From stdpp Require Import base option list strings gmap pretty.

Local Open Scope string_scope.
Local Open Scope Z_scope.
Local Open Scope list_scope.

(** ** JSON values, as [request.get_json] hands them to the handler *)

#[warnings="-register-all"]
Inductive json :=
| JNull
| JBool (b : bool)
| JNum (n : Z)                 (* an integer literal: a Python int *)
| JFloat (x : float)           (* a literal with fraction or exponent: a Python float *)
| JStr (s : string)
| JArr (items : list json)
| JObj (members : list (string * json)).

(** Python truthiness ([not x], [x and y]). *)
Definition truthy (v : json) : bool :=
  match v with
  | JNull => false
  | JBool b => b
  | JNum n => negb (n =? 0)
  | JFloat x => negb (PrimFloat.eqb x 0%float)
  | JStr s => negb (String.eqb s "")
  | JArr items => match items with [] => false | _ => true end
  | JObj members => match members with [] => false | _ => true end
  end.

(** [x and y]: the first operand when it is falsy, the second otherwise. *)
Definition py_and (x y : json) : json := if truthy x then y else x.

(** [x or y]. *)
Definition py_or (x y : json) : json := if truthy x then x else y.

(** Lookup in a decoded JSON object; a repeated key keeps its last value. *)
Fixpoint dict_lookup (k : string) (members : list (string * json)) : option json :=
  match members with
  | [] => None
  | (k', v) :: rest =>
      match dict_lookup k rest with
      | Some v' => Some v'
      | None => if String.eqb k k' then Some v else None
      end
  end.

(** Name of the Python type of a decoded value, as error messages print it. *)
Definition type_name (v : json) : string :=
  match v with
  | JNull => "NoneType"
  | JBool _ => "bool"
  | JNum _ => "int"
  | JFloat _ => "float"
  | JStr _ => "str"
  | JArr _ => "list"
  | JObj _ => "dict"
  end.

(** ** Exceptions *)

Inductive exn_class :=
| BadRequest            (* werkzeug, raised by get_json on an undecodable body *)
| AttributeError
| TypeError
| OSError               (* open() *)
| CalledProcessError    (* subprocess, check=True and a non-zero exit status *)
| TimeoutExpired        (* subprocess *)
| RequestException      (* requests: connection errors, timeouts, ... *)
| UnicodeEncodeError    (* encoding text that holds a surrogate code point *)
| OtherException.       (* any other subclass of Exception *)

Record exn := Exn { exn_class_of : exn_class; exn_str : string }.

Definition is_TimeoutExpired (e : exn) : bool :=
  match exn_class_of e with TimeoutExpired => true | _ => false end.

Definition is_RequestException (e : exn) : bool :=
  match exn_class_of e with RequestException => true | _ => false end.

(** ** Text and its encoding

    A Python [str] is modelled by the bytes of its UTF-8 form.  JSON
    decoding leaves a surrogate code point (U+D800 to U+DFFF) in a [str]
    when an escape such as \udc80 stands alone; such a code point is
    modelled by the three bytes ED, A0..BF, 80..BF it would have.  [print]
    and the [write] of a text file encode their text, and encoding a
    surrogate raises [UnicodeEncodeError]. *)

Definition byte (a : ascii) : N := N_of_ascii a.

(** A byte 10xxxxxx, which continues a code point. *)
Definition is_continuation (a : ascii) : bool :=
  (128 <=? byte a)%N && (byte a <? 192)%N.

(** The first two bytes of a surrogate. *)
Definition is_surrogate_head (a b : ascii) : bool :=
  (byte a =? 237)%N && (160 <=? byte b)%N && (byte b <=? 191)%N.

(** The first surrogate of a text: its index, counted in code points from
    [pos], and the text from there on. *)
Fixpoint find_surrogate (pos : nat) (s : string) : option (nat * string) :=
  match s with
  | EmptyString => None
  | String a rest =>
      if match rest with
         | String b (String _ _) => is_surrogate_head a b
         | _ => false
         end
      then Some (pos, s)
      else find_surrogate (if is_continuation a then pos else S pos) rest
  end.

(** How many surrogates stand in a row at the head of a text. *)
Fixpoint surrogate_run (s : string) : nat :=
  match s with
  | String a (String b (String _ rest)) =>
      if is_surrogate_head a b then S (surrogate_run rest) else O
  | _ => O
  end.

Definition hex_digit (n : N) : string :=
  match n with
  | 0 => "0" | 1 => "1" | 2 => "2" | 3 => "3" | 4 => "4" | 5 => "5"
  | 6 => "6" | 7 => "7" | 8 => "8" | 9 => "9" | 10 => "a" | 11 => "b"
  | 12 => "c" | 13 => "d" | 14 => "e" | _ => "f"
  end%N.

Definition hex4 (n : N) : string :=
  (hex_digit (n / 4096 mod 16) ++ hex_digit (n / 256 mod 16)
   ++ hex_digit (n / 16 mod 16) ++ hex_digit (n mod 16))%N%string.

(** The code point of the surrogate at the head of a text. *)
Definition surrogate_code (s : string) : N :=
  match s with
  | String _ (String b (String c _)) =>
      (53248 + (byte b mod 64) * 64 + byte c mod 64)%N
  | _ => 0%N
  end.

(** The exception that encoding [text] raises, if any; its message is the
    one of the UTF-8 codec. *)
Definition encode_error (text : string) : option exn :=
  match find_surrogate 0 text with
  | None => None
  | Some (pos, from) =>
      let run := surrogate_run from in
      Some (Exn UnicodeEncodeError
              (if (run <=? 1)%nat
               then "'utf-8' codec can't encode character '\u"
                    ++ hex4 (surrogate_code from) ++ "' in position "
                    ++ pretty pos ++ ": surrogates not allowed"
               else "'utf-8' codec can't encode characters in position "
                    ++ pretty pos ++ "-" ++ pretty (pos + run - 1)%nat
                    ++ ": surrogates not allowed")%string)
  end.

(** The first [n] code points of a text. *)
Fixpoint take_chars (n : nat) (s : string) : string :=
  match s with
  | EmptyString => EmptyString
  | String a rest =>
      if is_continuation a then String a (take_chars n rest)
      else match n with
           | O => EmptyString
           | S n' => String a (take_chars n' rest)
           end
  end.

(** ** The world and the platform oracle *)

Inductive event :=
| Exec (cmd : string)                              (* subprocess.run(cmd, shell=True) *)
| Sleep (seconds : Z)                              (* time.sleep *)
| FileWrite (path content : string)                (* open(path, 'w'), to write content *)
| Post (url : string) (payload : list (string * json))
       (headers : list (string * string)) (timeout : Z).   (* requests.post *)

Record world := World {
  files : gmap string string;    (* the files the program opens itself *)
  history : list event           (* every interaction issued so far *)
}.

Record completed := Completed {
  returncode : Z;
  stdout : string;
  stderr : string
}.

Inductive proc_outcome :=
| Exited (result : completed)
| ProcRaises (e : exn).

Inductive post_outcome :=
| Responded (status_code : Z) (text : string)
| PostRaises (e : exn).

Record platform := Platform {
  (** outcome of a shell command issued after the given history *)
  os_exec : list event -> string -> proc_outcome;
  (** [Some msg] when opening the path for writing raises [OSError msg] *)
  os_open_w : list event -> string -> option string;
  (** outcome of an HTTP POST issued after the given history *)
  net_post : list event -> string -> list (string * json) ->
             list (string * string) -> Z -> post_outcome;
  (** os.environ *)
  environ : gmap string string;
  (** [str(v)] as an f-string renders a decoded value that is not a string *)
  py_format : json -> string
}.

(** ** State and exception monad *)

Inductive result (A : Type) :=
| Ok (a : A)
| Raise (e : exn).
Arguments Ok {A} a.
Arguments Raise {A} e.

Definition M (A : Type) : Type := world -> result A * world.

Definition ret {A} (a : A) : M A := fun w => (Ok a, w).

Definition raise {A} (e : exn) : M A := fun w => (Raise e, w).

Definition bind {A B} (m : M A) (k : A -> M B) : M B :=
  fun w =>
    match m w with
    | (Ok a, w') => k a w'
    | (Raise e, w') => (Raise e, w')
    end.

(** [try: body / except ...]: [catch e] is [Some h] when some except clause
    matches [e], and then the clause's block [h] runs; an exception raised
    by [h] leaves the statement. *)
Definition try_except {A} (body : M A) (catch : exn -> option (M A)) : M A :=
  fun w =>
    match body w with
    | (Ok a, w') => (Ok a, w')
    | (Raise e, w') =>
        match catch e with
        | Some h => h w'
        | None => (Raise e, w')
        end
    end.

Declare Scope py_scope.
Delimit Scope py_scope with py.
Notation "x <- m ;; k" := (bind m (fun x => k))
  (at level 100, m at next level, right associativity) : py_scope.
Notation "m ;; k" := (bind m (fun _ => k))
  (at level 100, right associativity) : py_scope.
Local Open Scope py_scope.

Definition record (e : event) (w : world) : world :=
  {| files := files w; history := history w ++ [e] |}.

(** ** Responses: [jsonify(body), status] *)

Record response := Response {
  body : list (string * json);
  status : Z
}.

(** ** Module constants *)

Definition AP_NETWORK : string := "EVVOS_0001".
Definition WLAN_INTERFACE : string := "wlan0".
Definition AP_RESTORED_FILE : string := "/tmp/evvos_ap_restored".
Definition PROVISIONED_FILE : string := "/etc/evvos_provisioned".

Definition tab : string := String (ascii_of_nat 9) "".
Definition nl : string := String (ascii_of_nat 10) "".
Definition dquote : string := String (ascii_of_nat 34) "".

(** ["needle" in hay] *)
Fixpoint str_in (needle hay : string) : bool :=
  String.prefix needle hay ||
  match hay with
  | EmptyString => false
  | String _ rest => str_in needle rest
  end.

(** create_wpa_config: the f-string of lines 74-83; both values are put
    between the quotes as they are. *)
Definition create_wpa_config (ssid password : string) : string :=
  "ctrl_interface=DIR=/var/run/wpa_supplicant GROUP=netdev" ++ nl ++
  "update_config=1" ++ nl ++
  "country=PH" ++ nl ++
  nl ++
  "network={" ++ nl ++
  tab ++ "ssid=" ++ dquote ++ ssid ++ dquote ++ nl ++
  tab ++ "psk=" ++ dquote ++ password ++ dquote ++ nl ++
  tab ++ "scan_ssid=1" ++ nl ++
  "}" ++ nl.

Section Server.

Variable P : platform.

Definition EDGE_FINISH_URL : string :=
  default "https://your-supabase-project.functions.supabase.co/functions/v1/finish_provisioning"
          (environ P !! "EDGE_FINISH_URL").

Definition SERVICE_ROLE_KEY : string :=
  default "" (environ P !! "SUPABASE_SERVICE_ROLE_KEY").

(** [f"{v}"] *)
Definition fstr (v : json) : string :=
  match v with
  | JStr s => s
  | _ => py_format P v
  end.

(** *** Primitive interactions *)

(** subprocess.run(cmd, shell=True, check=check, capture_output=True,
    text=True, timeout=timeout).  The command enters the history; what it
    does to files other than the program's own is outside the world. *)
Definition subprocess_run (cmd : string) (check : bool) (timeout : option Z)
  : M completed :=
  fun w =>
    let w' := record (Exec cmd) w in
    match os_exec P (history w) cmd with
    | Exited r =>
        if check && negb (returncode r =? 0)
        then (Raise (Exn CalledProcessError
                      ("Command '" ++ cmd ++ "' returned non-zero exit status")), w')
        else (Ok r, w')
    | ProcRaises e => (Raise e, w')
    end.

Definition sleep (seconds : Z) : M unit :=
  fun w => (Ok tt, record (Sleep seconds) w).

(** open(path, 'w') followed by writing [content] and closing.  When the
    file cannot be opened nothing changes.  Once it is open it exists and is
    empty; the write then raises when the text cannot be encoded, and the
    file stays empty. *)
Definition write_file (path content : string) : M unit :=
  fun w =>
    match os_open_w P (history w) path with
    | Some msg => (Raise (Exn OSError msg), record (FileWrite path content) w)
    | None =>
        match encode_error content with
        | Some e =>
            (Raise e, {| files := <[path := ""]> (files w);
                         history := history w ++ [FileWrite path content] |})
        | None =>
            (Ok tt, {| files := <[path := content]> (files w);
                       history := history w ++ [FileWrite path content] |})
        end
    end.

(** requests.post(url, json=payload, headers=headers, timeout=timeout) *)
Definition requests_post (url : string) (payload : list (string * json))
    (headers : list (string * string)) (timeout : Z) : M (Z * string) :=
  fun w =>
    let w' := record (Post url payload headers timeout) w in
    match net_post P (history w) url payload headers timeout with
    | Responded code text => (Ok (code, text), w')
    | PostRaises e => (Raise e, w')
    end.

(** os.path.exists *)
Definition path_exists (path : string) (w : world) : bool :=
  bool_decide (is_Some (files w !! path)).

(** *** run (lines 29-46) *)

Definition run (cmd : string) (check : bool) (timeout : option Z)
  : M (option completed) :=
  try_except
    (r <- subprocess_run cmd check timeout ;; ret (Some r))
    (fun e =>
       if is_TimeoutExpired e then Some (ret None)   (* except TimeoutExpired *)
       else Some (ret None)).                        (* except Exception *)

(** *** is_connected_to_wifi (lines 49-60) *)

Definition probe_cmd : string :=
  "/sbin/ifconfig " ++ WLAN_INTERFACE ++ " || ip addr show " ++ WLAN_INTERFACE.

(** [result and result.stdout] followed by ["inet " in result.stdout] *)
Definition has_inet (result : option completed) : bool :=
  match result with
  | None => false
  | Some r => negb (String.eqb (stdout r) "") && str_in "inet " (stdout r)
  end.

(** The loop [for i in range(max_retries)]; the argument counts the
    iterations that remain. *)
Fixpoint is_connected_to_wifi (max_retries : nat) : M bool :=
  match max_retries with
  | O => ret false
  | S remaining =>
      result <- run probe_cmd false None ;;
      if has_inet result then ret true
      else sleep 1 ;; is_connected_to_wifi remaining
  end.

(** *** restore_ap_mode (lines 63-69) *)

Definition restore_ap_mode : M unit :=
  run "systemctl start hostapd" false None ;;
  run "systemctl start dnsmasq" false None ;;
  write_file AP_RESTORED_FILE "".

(** *** provision (lines 87-214) *)

Definition resp_missing_fields : response :=
  Response [("ok", JBool false);
            ("error", JStr "Missing fields (token, ssid, password)")] 400.

Definition resp_connect_failed : response :=
  Response [("ok", JBool false);
            ("error", JStr "Failed to connect to hotspot. Please check SSID/password and try again.")]
           400.

Definition resp_edge_failed (text : string) : response :=
  Response [("ok", JBool false);
            ("error", JStr "Device connection registered but edge function failed");
            ("detail", JStr text)] 500.

Definition resp_edge_unreachable (e : exn) : response :=
  Response [("ok", JBool false);
            ("error", JStr "Failed to call edge function");
            ("detail", JStr (exn_str e))] 500.

Definition resp_success : response :=
  Response [("ok", JBool true);
            ("message", JStr "Device provisioned successfully")] 200.

Definition resp_provisioning_failed (e : exn) : response :=
  Response [("ok", JBool false);
            ("error", JStr "Provisioning failed");
            ("detail", JStr (exn_str e))] 500.

Definition resp_invalid_request (e : exn) : response :=
  Response [("ok", JBool false);
            ("error", JStr "Invalid request");
            ("detail", JStr (exn_str e))] 400.

(** The body of a POST: either it does not decode (get_json raises) or it
    is a JSON value. *)
Inductive request :=
| Undecodable (msg : string)
| Decoded (data : json).

(** request.get_json(force=True) *)
Definition get_json (req : request) : M json :=
  match req with
  | Undecodable msg => raise (Exn BadRequest msg)
  | Decoded data => ret data
  end.

(** data.get(key, dflt) *)
Definition data_get (data : json) (key : string) (dflt : json) : M json :=
  match data with
  | JObj members => ret (default dflt (dict_lookup key members))
  | _ => raise (Exn AttributeError
                 ("'" ++ type_name data ++ "' object has no attribute 'get'"))
  end.

(** token[:8], evaluated for the progress message of line 106.  Strings
    and lists can be sliced; [None], a number or a boolean raises the
    [TypeError] "object is not subscriptable".  A dict raises too: the
    [TypeError] "unhashable type: 'slice'" up to Python 3.11, which is what
    is modelled (from Python 3.12 on it is a [KeyError]). *)
Definition slice8 (token : json) : M unit :=
  match token with
  | JStr _ | JArr _ => ret tt
  | JObj _ => raise (Exn TypeError "unhashable type: 'slice'")
  | _ => raise (Exn TypeError
                 ("'" ++ type_name token ++ "' object is not subscriptable"))
  end.

(** print(text): the text is encoded for the console, which is taken to be
    a UTF-8 stream with Python's default (strict) error handling. *)
Definition py_print (text : string) : M unit :=
  match encode_error text with
  | Some e => raise e
  | None => ret tt
  end.

(** print(f"{prefix}{v}{suffix}").  Only a [str] can bring a surrogate into
    the line; any other value is rendered through its repr, which escapes
    them. *)
Definition print_value (prefix : string) (v : json) (suffix : string) : M unit :=
  match v with
  | JStr s => py_print (prefix ++ s ++ suffix)
  | _ => ret tt
  end.

(** The value of token[:8] once [slice8] has passed. *)
Definition first8 (token : json) : json :=
  match token with
  | JStr s => JStr (take_chars 8 s)
  | v => v
  end.

Definition tmp_path : string := "/tmp/wpa_supplicant_tmp.conf".

Record fields := Fields {
  f_token : json;
  f_ssid : json;
  f_password : json;
  f_device_name : json
}.

(** Lines 94-114: decoding, validation, the progress lines that show
    request text (lines 104-106) and step 1.  The result is either the
    early 400 reply or the validated fields.  The progress lines of constant
    text (lines 103, 109 and 114) cannot raise and are left out. *)
Definition provision_prologue (req : request) : M (response + fields) :=
  got <- get_json req ;;
  let data := py_or got (JObj []) in
  token <- data_get data "token" JNull ;;
  ssid <- data_get data "ssid" JNull ;;
  password <- data_get data "password" JNull ;;
  device_name <- data_get data "device_name" (JStr "EVVOS_0001") ;;
  if negb (truthy (py_and (py_and token ssid) password))
  then ret (inl resp_missing_fields)
  else
    print_value "   SSID: " ssid "" ;;
    print_value "   Device: " device_name "" ;;
    slice8 token ;;
    print_value "   Token: " (first8 token) "..." ;;
    write_file tmp_path (create_wpa_config (fstr ssid) (fstr password)) ;;
    ret (inr (Fields token ssid password device_name)).

(** Steps 2 to 5 up to the verdict of the connectivity check
    (lines 117-136). *)
Definition connect_phase : M bool :=
  run "systemctl stop hostapd" false None ;;
  run "systemctl stop dnsmasq" false None ;;
  sleep 1 ;;
  run ("cp " ++ tmp_path ++ " /etc/wpa_supplicant/wpa_supplicant.conf") true None ;;
  run "wpa_cli -i wlan0 reconfigure" false None ;;
  sleep 2 ;;
  is_connected_to_wifi 20.

Definition edge_payload (f : fields) : list (string * json) :=
  [("token", f_token f); ("ssid", f_ssid f);
   ("password", f_password f); ("device_name", f_device_name f)].

Definition edge_headers : list (string * string) :=
  [("Content-Type", "application/json");
   ("Authorization", ("Bearer " ++ SERVICE_ROLE_KEY)%string)].

(** Step 6 (lines 160-181): [Some r] is the early reply of a failed
    registration, [None] lets the handler go on to step 7. *)
Definition register_phase (f : fields) : M (option response) :=
  try_except
    (resp <- requests_post EDGE_FINISH_URL (edge_payload f) edge_headers 15 ;;
     if negb (fst resp =? 200)
     then restore_ap_mode ;; ret (Some (resp_edge_failed (snd resp)))
     else ret None)
    (fun e =>
       if is_RequestException e
       then Some (restore_ap_mode ;; ret (Some (resp_edge_unreachable e)))
       else None).

(** Steps 7 and 8 (lines 183-196). *)
Definition finish_phase : M response :=
  write_file PROVISIONED_FILE "1" ;;
  run "systemctl stop hostapd" false None ;;
  run "systemctl stop dnsmasq" false None ;;
  run "systemctl stop provision-server" false None ;;
  ret resp_success.

(** The block of the inner [try] (lines 117-196). *)
Definition provision_steps (f : fields) : M response :=
  connected <- connect_phase ;;
  if negb connected
  then restore_ap_mode ;; ret resp_connect_failed
  else
    early <- register_phase f ;;
    match early with
    | Some r => ret r
    | None => finish_phase
    end.

(** The inner [try] with its [except Exception] (lines 116-206). *)
Definition provision_guarded (f : fields) : M response :=
  try_except (provision_steps f)
    (fun e => Some (restore_ap_mode ;; ret (resp_provisioning_failed e))).

(** The whole handler: the outer [try] with its [except Exception]
    (lines 93-214). *)
Definition provision (req : request) : M response :=
  try_except
    (early <- provision_prologue req ;;
     match early with
     | inl r => ret r
     | inr f => provision_guarded f
     end)
    (fun e => Some (ret (resp_invalid_request e))).

(** *** provision_status (lines 217-222) and health (lines 225-228) *)

Definition provision_status : M response :=
  fun w =>
    if path_exists PROVISIONED_FILE w
    then (Ok (Response [("ok", JBool true); ("provisioned", JBool true)] 200), w)
    else (Ok (Response [("ok", JBool true); ("provisioned", JBool false)] 200), w).

Definition health : M response :=
  ret (Response [("ok", JBool true);
                 ("status", JStr "provisioning server running")] 200).

End Server.

(** ** Reading the oracle *)

Section Observations.

Variable P : platform.

(** The probe issued after history [h] shows an assigned address. *)
Definition address_seen (h : list event) : bool :=
  match os_exec P h probe_cmd with
  | Exited r => negb (String.eqb (stdout r) "") && str_in "inet " (stdout r)
  | ProcRaises _ => false
  end.

(** What the registration call answers when issued after history [h]. *)
Definition edge_call (h : list event) (f : fields) : post_outcome :=
  net_post P h (EDGE_FINISH_URL P) (edge_payload f) (edge_headers P) 15.

Definition edge_post (f : fields) : event :=
  Post (EDGE_FINISH_URL P) (edge_payload f) (edge_headers P) 15.

End Observations.

(** One unsuccessful round of the connectivity poll. *)
Definition poll_round : list event := [Exec probe_cmd; Sleep 1].

Fixpoint poll_rounds (k : nat) : list event :=
  match k with
  | O => []
  | S k' => poll_round ++ poll_rounds k'
  end.

Definition is_probe (e : event) : bool :=
  match e with
  | Exec cmd => String.eqb cmd probe_cmd
  | _ => false
  end.

Definition probes_issued (evs : list event) : nat :=
  length (List.filter is_probe evs).

Fixpoint seconds_slept (evs : list event) : Z :=
  match evs with
  | [] => 0
  | Sleep s :: rest => s + seconds_slept rest
  | _ :: rest => seconds_slept rest
  end.

(** The three interactions of a rollback. *)
Definition rollback_events : list event :=
  [Exec "systemctl start hostapd"; Exec "systemctl start dnsmasq";
   FileWrite AP_RESTORED_FILE ""].

(** The interactions of steps 2 to 4, before the poll starts. *)
Definition join_events : list event :=
  [Exec "systemctl stop hostapd"; Exec "systemctl stop dnsmasq"; Sleep 1;
   Exec ("cp " ++ tmp_path ++ " /etc/wpa_supplicant/wpa_supplicant.conf");
   Exec "wpa_cli -i wlan0 reconfigure"; Sleep 2].

(** The interactions of steps 7 and 8. *)
Definition finish_events : list event :=
  [FileWrite PROVISIONED_FILE "1"; Exec "systemctl stop hostapd";
   Exec "systemctl stop dnsmasq"; Exec "systemctl stop provision-server"].

(** ** Reading a request *)

(** What the handler reads for a field of the request: [JNull] (Python's
    [None]) when the body is not an object or has no such member. *)
Definition field_of (req : request) (key : string) : json :=
  match req with
  | Decoded (JObj members) => default JNull (dict_lookup key members)
  | _ => JNull
  end.

(** A field is absent or empty when the handler's test finds it falsy. *)
Definition absent_or_empty (req : request) (key : string) : Prop :=
  truthy (field_of req key) = false.

(** ** Reading a join configuration back *)

Definition LF : ascii := ascii_of_nat 10.
Definition DQ : ascii := ascii_of_nat 34.

Fixpoint no_line_feed (s : string) : bool :=
  match s with
  | EmptyString => true
  | String c rest => negb (Ascii.eqb c LF) && no_line_feed rest
  end.

(** The lines of a text. *)
Fixpoint text_lines (s : string) : list string :=
  match s with
  | EmptyString => [EmptyString]
  | String c rest =>
      if Ascii.eqb c LF then EmptyString :: text_lines rest
      else match text_lines rest with
           | [] => [String c EmptyString]
           | l :: ls => String c l :: ls
           end
  end.

Fixpoint strip_prefix (p s : string) : option string :=
  match p, s with
  | EmptyString, _ => Some s
  | String a p', String b s' =>
      if Ascii.eqb a b then strip_prefix p' s' else None
  | String _ _, EmptyString => None
  end.

(** The text before the last character, which has to be a double quote. *)
Fixpoint strip_closing_quote (s : string) : option string :=
  match s with
  | EmptyString => None
  | String c EmptyString => if Ascii.eqb c DQ then Some EmptyString else None
  | String c rest => option_map (String c) (strip_closing_quote rest)
  end.

(** A line [<tab>key="value"]: the value is everything between the quote
    that opens it and the quote that ends the line. *)
Definition quoted_value (key line : string) : option string :=
  match strip_prefix (tab ++ key ++ "=" ++ dquote)%string line with
  | Some rest => strip_closing_quote rest
  | None => None
  end.

Fixpoint first_value (key : string) (ls : list string) : option string :=
  match ls with
  | [] => None
  | l :: ls' =>
      match quoted_value key l with
      | Some v => Some v
      | None => first_value key ls'
      end
  end.

(** A line-by-line reader of the generated file. *)
Definition read_wpa_config (config : string) : option (string * string) :=
  match first_value "ssid" (text_lines config),
        first_value "psk" (text_lines config) with
  | Some ssid, Some password => Some (ssid, password)
  | _, _ => None
  end.

(** Two pairs of credentials, each value with embedded double quotes, that
    yield the same file. *)
Definition clash_ssid_1 : string :=
  ("a" ++ dquote ++ "b" ++ dquote ++ nl ++ tab ++ "psk=" ++ dquote ++ "c")%string.
Definition clash_password_1 : string := ("d" ++ dquote ++ "e")%string.
Definition clash_ssid_2 : string := ("a" ++ dquote ++ "b")%string.
Definition clash_password_2 : string :=
  ("c" ++ dquote ++ nl ++ tab ++ "psk=" ++ dquote ++ "d" ++ dquote ++ "e")%string.

(** ** Sample platforms, requests and runs *)

Definition inet_report : string :=
  "wlan0: flags=4163<UP,BROADCAST,RUNNING,MULTICAST>  inet 192.168.43.17  netmask 255.255.255.0".

Definition no_inet_report : string :=
  "wlan0: flags=4099<UP,BROADCAST,MULTICAST>  ether b8:27:eb:00:00:01".

Definition opens_everything : list event -> string -> option string :=
  fun _ _ => None.

Definition denied_msg (path : string) : string :=
  ("[Errno 13] Permission denied: '" ++ path ++ "'")%string.

(** Opening [path] for writing always fails. *)
Definition denies (path : string) : list event -> string -> option string :=
  fun _ p => if String.eqb p path then Some (denied_msg path) else None.

Definition wrote (path : string) (e : event) : bool :=
  match e with
  | FileWrite p _ => String.eqb p path
  | _ => false
  end.

(** Opening [path] for writing fails the first time it is tried only. *)
Definition denies_once (path : string) : list event -> string -> option string :=
  fun h p =>
    if String.eqb p path && negb (existsb (wrote path) h)
    then Some (denied_msg path) else None.

(** A device on which every command exits with status 0, the probe shows
    an address once [positive_from] probes have been made before it, the
    registration call always ends as [post] and files open as [open_w]. *)
Definition rig (positive_from : nat) (post : post_outcome)
    (open_w : list event -> string -> option string) : platform :=
  {| os_exec := fun h cmd =>
       if String.eqb cmd probe_cmd
       then Exited (Completed 0
                      (if (positive_from <=? probes_issued h)%nat
                       then inet_report else no_inet_report) "")
       else Exited (Completed 0 "" "");
     os_open_w := open_w;
     net_post := fun _ _ _ _ _ => post;
     environ := ∅;
     py_format := fun _ => "" |}.

Definition sample_request : request :=
  Decoded (JObj [("token", JStr "abc12345"); ("ssid", JStr "HomeNet");
                 ("password", JStr "secret1"); ("device_name", JStr "Dev1")]).

Definition sample_fields : fields :=
  Fields (JStr "abc12345") (JStr "HomeNet") (JStr "secret1") (JStr "Dev1").

Definition request_without_password : request :=
  Decoded (JObj [("token", JStr "abc12345"); ("ssid", JStr "HomeNet")]).

(** A freshly booted device: no marker, nothing issued yet. *)
Definition boot : world := World ∅ [].

(** The world after the prologue, and after the connect phase. *)
Definition accepted (P : platform) : world :=
  snd (provision_prologue P sample_request boot).

Definition polled (P : platform) : world :=
  snd (connect_phase P (accepted P)).

Definition happy_rig : platform := rig 2 (Responded 200 "ok") opens_everything.
Definition no_wifi_rig : platform := rig 100 (Responded 200 "ok") opens_everything.
Definition no_wifi_flaky_marker_rig : platform :=
  rig 100 (Responded 200 "ok") (denies_once AP_RESTORED_FILE).
Definition no_wifi_no_marker_rig : platform :=
  rig 100 (Responded 200 "ok") (denies AP_RESTORED_FILE).
Definition edge_503_rig : platform :=
  rig 0 (Responded 503 "service unavailable") opens_everything.
Definition tmp_denied_rig : platform :=
  rig 0 (Responded 200 "ok") (denies tmp_path).
Definition etc_denied_rig : platform :=
  rig 0 (Responded 200 "ok") (denies PROVISIONED_FILE).
Definition marker_denied_rig : platform :=
  rig 0 (Responded 200 "ok") (denies AP_RESTORED_FILE).

(** ** The endpoints, served one call after the other *)

(** The three routes of the application (lines 87, 217 and 225). *)
Inductive call :=
| PostProvision (req : request)
| GetProvisionStatus
| GetHealth.

Definition dispatch (P : platform) (c : call) : M response :=
  match c with
  | PostProvision req => provision P req
  | GetProvisionStatus => provision_status
  | GetHealth => health
  end.

(** A sequence of calls, each handled to its end before the next starts. *)
Fixpoint serve (P : platform) (calls : list call) : M (list response) :=
  match calls with
  | [] => ret []
  | c :: rest =>
      r <- dispatch P c ;;
      rs <- serve P rest ;;
      ret (r :: rs)
  end.

Definition is_post_provision (c : call) : bool :=
  match c with
  | PostProvision _ => true
  | _ => false
  end.

(** The replies to the POST calls among the replies to [calls]. *)
Fixpoint post_replies (calls : list call) (rs : list response) : list response :=
  match calls, rs with
  | c :: calls', r :: rs' =>
      if is_post_provision c then r :: post_replies calls' rs'
      else post_replies calls' rs'
  | _, _ => []
  end.

Definition status_reply (provisioned : bool) : response :=
  Response [("ok", JBool true); ("provisioned", JBool provisioned)] 200.

(** ** What an attempt may do *)

(** Every command line that occurs in the program. *)
Definition known_commands : list string :=
  [ "systemctl stop hostapd"; "systemctl stop dnsmasq";
    ("cp " ++ tmp_path ++ " /etc/wpa_supplicant/wpa_supplicant.conf")%string;
    "wpa_cli -i wlan0 reconfigure"; probe_cmd;
    "systemctl start hostapd"; "systemctl start dnsmasq";
    "systemctl stop provision-server" ].

(** The interactions open to the inner [try] of an attempt with fields [f]. *)
Definition guarded_event (P : platform) (f : fields) (e : event) : Prop :=
  match e with
  | Exec cmd => In cmd known_commands
  | Sleep s => s = 1 \/ s = 2
  | FileWrite path content =>
      (path = AP_RESTORED_FILE /\ content = "")
      \/ (path = PROVISIONED_FILE /\ content = "1")
  | Post url payload headers timeout =>
      url = EDGE_FINISH_URL P /\ payload = edge_payload f
      /\ headers = edge_headers P /\ timeout = 15
  end.

(** The interactions open to a whole call of the handler, whatever the
    request. *)
Definition attempt_event (P : platform) (e : event) : Prop :=
  match e with
  | Exec cmd => In cmd known_commands
  | Sleep s => s = 1 \/ s = 2
  | FileWrite path content =>
      path = tmp_path
      \/ (path = AP_RESTORED_FILE /\ content = "")
      \/ (path = PROVISIONED_FILE /\ content = "1")
  | Post url payload headers timeout =>
      url = EDGE_FINISH_URL P /\ headers = edge_headers P /\ timeout = 15
  end.

(** [w'] extends [w] by interactions that all satisfy [ok]. *)
Definition extends_by (ok : event -> Prop) (w w' : world) : Prop :=
  exists evs, history w' = history w ++ evs /\ Forall ok evs.

(** Only the three files of the program may differ, and no file is lost. *)
Definition files_grow (w w' : world) : Prop :=
  (forall path, path <> tmp_path -> path <> AP_RESTORED_FILE ->
                path <> PROVISIONED_FILE ->
                files w' !! path = files w !! path)
  /\ (forall path, is_Some (files w !! path) -> is_Some (files w' !! path)).

(** A computation keeps a relation between the world it starts in and the
    world it ends in, whether it returns or raises. *)
Definition keeps (I : world -> world -> Prop) {A} (m : M A) : Prop :=
  forall w, I w (snd (m w)).

(** ** Counting what an attempt issues *)

Fixpoint weight (mu : event -> Z) (evs : list event) : Z :=
  match evs with
  | [] => 0
  | e :: rest => mu e + weight mu rest
  end.

Definition sleep_seconds (e : event) : Z :=
  match e with
  | Sleep s => s
  | _ => 0
  end.

Definition post_count (e : event) : Z :=
  match e with
  | Post _ _ _ _ => 1
  | _ => 0
  end.

Definition probe_count (e : event) : Z :=
  if is_probe e then 1 else 0.

(** A computation issues interactions of total weight at most [c]. *)
Definition spends (mu : event -> Z) (c : Z) {A} (m : M A) : Prop :=
  forall w, exists evs,
    history (snd (m w)) = history w ++ evs /\ weight mu evs <= c.

(** ** Independence from the files *)

(** Two runs agree on the result and on the interactions issued. *)
Definition same_run {A} (x y : result A * world) : Prop :=
  fst x = fst y /\ history (snd x) = history (snd y).

(** A computation never looks at the files. *)
Definition oblivious {A} (m : M A) : Prop :=
  forall w1 w2, history w1 = history w2 -> same_run (m w1) (m w2).

(** ** Tokens the progress message can slice *)

Definition sliceable (token : json) : bool :=
  match token with
  | JStr _ | JArr _ => true
  | _ => false
  end.

(** ** The request as the prologue reads it *)

(** The four fields the handler takes from the members of a JSON object. *)
Definition request_fields (members : list (string * json)) : fields :=
  Fields (default JNull (dict_lookup "token" members))
         (default JNull (dict_lookup "ssid" members))
         (default JNull (dict_lookup "password" members))
         (default (JStr "EVVOS_0001") (dict_lookup "device_name" members)).

(** The text of the join configuration written for the fields. *)
Definition join_config (P : platform) (f : fields) : string :=
  create_wpa_config (fstr P (f_ssid f)) (fstr P (f_password f)).

(** The exception that printing a progress line raises, if any. *)
Definition print_error (prefix : string) (v : json) (suffix : string)
  : option exn :=
  match v with
  | JStr s => encode_error (prefix ++ s ++ suffix)
  | _ => None
  end.

(** The exception that evaluating token[:8] raises, if any. *)
Definition slice_error (token : json) : option exn :=
  match token with
  | JStr _ | JArr _ => None
  | JObj _ => Some (Exn TypeError "unhashable type: 'slice'")
  | _ => Some (Exn TypeError
                 ("'" ++ type_name token ++ "' object is not subscriptable"))
  end.

(** The first exception raised by the progress lines 104 to 106, if any. *)
Definition progress_error (f : fields) : option exn :=
  match print_error "   SSID: " (f_ssid f) "" with
  | Some e => Some e
  | None =>
      match print_error "   Device: " (f_device_name f) "" with
      | Some e => Some e
      | None =>
          match slice_error (f_token f) with
          | Some e => Some e
          | None => print_error "   Token: " (first8 (f_token f)) "..."
          end
      end
  end.

(** The files the program opens itself. *)
Definition own_files : list string :=
  [tmp_path; AP_RESTORED_FILE; PROVISIONED_FILE].

(** A device on which every command other than the probe exits with status
    1 and prints nothing; the rest is as on [rig]. *)
Definition failing_commands_rig (positive_from : nat) (post : post_outcome)
    (open_w : list event -> string -> option string) : platform :=
  {| os_exec := fun h cmd =>
       if String.eqb cmd probe_cmd
       then Exited (Completed 0
                      (if (positive_from <=? probes_issued h)%nat
                       then inet_report else no_inet_report) "")
       else Exited (Completed 1 "" "command failed");
     os_open_w := open_w;
     net_post := fun _ _ _ _ _ => post;
     environ := ∅;
     py_format := fun _ => "" |}.

Definition numeric_token_request : request :=
  Decoded (JObj [("token", JNum 12345678); ("ssid", JStr "HomeNet");
                 ("password", JStr "secret1")]).

Definition request_without_device_name : request :=
  Decoded (JObj [("token", JStr "abc12345"); ("ssid", JStr "HomeNet");
                 ("password", JStr "secret1")]).

(** The code point U+DFFF, a surrogate, as the JSON escape \udfff leaves it
    in a decoded string when it stands alone. *)
Definition lone_surrogate : string :=
  String (ascii_of_nat 237)
         (String (ascii_of_nat 191) (String (ascii_of_nat 191) "")).

Definition surrogate_ssid_request : request :=
  Decoded (JObj [("token", JStr "abc12345");
                 ("ssid", JStr ("Home" ++ lone_surrogate));
                 ("password", JStr "secret1")]).

Definition surrogate_password_request : request :=
  Decoded (JObj [("token", JStr "abc12345"); ("ssid", JStr "HomeNet");
                 ("password", JStr ("secret" ++ lone_surrogate))]).

(** ** Basic facts about the helpers *)

Section Helpers.

Variable P : platform.

Lemma world_eta (w : world) : {| files := files w; history := history w |} = w.
Proof. destruct w; reflexivity. Qed.


Lemma record_history e w : history (record e w) = history w ++ [e].
Proof. reflexivity. Qed.

(** [run] swallows every failure of the command: it always returns, and
    its only effect is the command itself. *)
Lemma run_returns cmd check timeout w :
  exists r, run P cmd check timeout w = (Ok r, record (Exec cmd) w).
Proof.
  unfold run, try_except, bind, subprocess_run, ret.
  destruct (os_exec P (history w) cmd) as [r|e].
  - destruct (check && negb (returncode r =? 0)); simpl.
    + eexists; reflexivity.
    + eexists; reflexivity.
  - destruct (is_TimeoutExpired e); eexists; reflexivity.
Qed.

Lemma run_probe w :
  exists r, run P probe_cmd false None w = (Ok r, record (Exec probe_cmd) w)
            /\ has_inet r = address_seen P (history w).
Proof.
  unfold run, try_except, bind, subprocess_run, ret, address_seen.
  destruct (os_exec P (history w) probe_cmd) as [r|e]; simpl.
  - eexists; split; reflexivity.
  - destruct (is_TimeoutExpired e); eexists; split; reflexivity.
Qed.

Lemma bind_run {A} cmd check timeout (k : option completed -> M A) w :
  exists r, bind (run P cmd check timeout) k w = k r (record (Exec cmd) w).
Proof.
  destruct (run_returns cmd check timeout w) as [r Hr].
  exists r. unfold bind. rewrite Hr. reflexivity.
Qed.

Lemma seq_run {A} cmd check timeout (m : M A) w :
  bind (run P cmd check timeout) (fun _ => m) w = m (record (Exec cmd) w).
Proof.
  destruct (bind_run cmd check timeout (fun _ => m) w) as [r Hr]. exact Hr.
Qed.

Lemma seq_sleep {A} s (m : M A) w :
  bind (sleep s) (fun _ => m) w = m (record (Sleep s) w).
Proof. reflexivity. Qed.

(** Writing text without surrogates can fail at the opening only. *)
Lemma write_file_plain path content w :
  encode_error content = None ->
  write_file P path content w =
    match os_open_w P (history w) path with
    | Some msg => (Raise (Exn OSError msg), record (FileWrite path content) w)
    | None => (Ok tt, {| files := <[path := content]> (files w);
                         history := history w ++ [FileWrite path content] |})
    end.
Proof. intros H. unfold write_file. rewrite H. reflexivity. Qed.

(** [restore_ap_mode]: the two start commands never matter for the result;
    the marker write decides it. *)
Lemma restore_ap_mode_eq w :
  restore_ap_mode P w =
    let h := history w ++ [Exec "systemctl start hostapd"; Exec "systemctl start dnsmasq"] in
    match os_open_w P h AP_RESTORED_FILE with
    | None => (Ok tt, {| files := <[AP_RESTORED_FILE := ""]> (files w);
                         history := history w ++ rollback_events |})
    | Some msg => (Raise (Exn OSError msg),
                   {| files := files w; history := history w ++ rollback_events |})
    end.
Proof.
  unfold restore_ap_mode. rewrite !seq_run.
  rewrite write_file_plain by reflexivity. unfold record; simpl.
  rewrite <- !app_assoc; simpl.
  destruct (os_open_w P _ AP_RESTORED_FILE); reflexivity.
Qed.

Lemma finish_phase_eq w :
  finish_phase P w =
    match os_open_w P (history w) PROVISIONED_FILE with
    | None => (Ok resp_success,
               {| files := <[PROVISIONED_FILE := "1"]> (files w);
                  history := history w ++ finish_events |})
    | Some msg => (Raise (Exn OSError msg), record (FileWrite PROVISIONED_FILE "1") w)
    end.
Proof.
  unfold finish_phase, bind at 1. rewrite write_file_plain by reflexivity.
  destruct (os_open_w P (history w) PROVISIONED_FILE); [reflexivity|].
  rewrite !seq_run. unfold ret, record; simpl.
  rewrite <- !app_assoc; reflexivity.
Qed.

Lemma poll_rounds_probes k : probes_issued (poll_rounds k) = k.
Proof.
  induction k as [|k IH]; [reflexivity|].
  unfold probes_issued in *. cbn [poll_rounds poll_round app List.filter is_probe].
  rewrite String.eqb_refl. cbn [length]. now rewrite IH.
Qed.

Lemma poll_rounds_slept k : seconds_slept (poll_rounds k) = Z.of_nat k.
Proof.
  induction k as [|k IH]; [reflexivity|].
  simpl poll_rounds. simpl seconds_slept. rewrite IH. lia.
Qed.

Lemma probes_issued_app a b :
  probes_issued (a ++ b) = (probes_issued a + probes_issued b)%nat.
Proof. unfold probes_issued. now rewrite List.filter_app, length_app. Qed.

Lemma seconds_slept_app a b :
  seconds_slept (a ++ b) = seconds_slept a + seconds_slept b.
Proof.
  induction a as [|e a IH]; simpl; [reflexivity|].
  destruct e; rewrite ?IH; lia.
Qed.

(** The poll, round by round. *)
Lemma is_connected_to_wifi_rounds (n : nat) :
  forall w, exists (k : nat) (b : bool),
    is_connected_to_wifi P n w =
      (Ok b, {| files := files w;
                history := history w ++ poll_rounds k
                             ++ (if b then [Exec probe_cmd] else []) |})
    /\ (forall j, (j < k)%nat -> address_seen P (history w ++ poll_rounds j) = false)
    /\ (if b then (k < n)%nat /\ address_seen P (history w ++ poll_rounds k) = true
        else k = n).
Proof.
  induction n as [|n IH]; intros w.
  - exists O, false. simpl. rewrite app_nil_r, world_eta.
    split; [reflexivity|]. split; [intros j Hj; lia | reflexivity].
  - simpl is_connected_to_wifi.
    destruct (run_probe w) as [r [Hr Hseen]].
    unfold bind at 1. rewrite Hr, Hseen.
    destruct (address_seen P (history w)) eqn:Hnow.
    + exists O, true. simpl. split; [reflexivity|].
      split; [intros j Hj; lia|]. split; [lia|]. now rewrite app_nil_r.
    + rewrite seq_sleep.
      destruct (IH (record (Sleep 1) (record (Exec probe_cmd) w)))
        as (k & b & Hrun & Hneg & Hend).
      exists (S k), b. rewrite Hrun. simpl.
      rewrite <- !app_assoc. simpl. split; [reflexivity|]. split.
      * intros [|j] Hj; simpl.
        -- now rewrite app_nil_r.
        -- specialize (Hneg j ltac:(lia)). simpl in Hneg.
           rewrite <- !app_assoc in Hneg. exact Hneg.
      * destruct b.
        -- destruct Hend as [Hlt Hpos]. split; [lia|].
           simpl in Hpos. rewrite <- !app_assoc in Hpos. exact Hpos.
        -- now rewrite Hend.
Qed.

(** Steps 2 to 4 cannot fail; the poll decides the verdict. *)
Lemma connect_phase_eq w :
  connect_phase P w =
    is_connected_to_wifi P 20
      {| files := files w; history := history w ++ join_events |}.
Proof.
  unfold connect_phase. rewrite !seq_run, !seq_sleep, !seq_run, !seq_sleep.
  unfold record; simpl. rewrite <- !app_assoc. reflexivity.
Qed.

Lemma connect_phase_returns w :
  exists (k : nat) (b : bool),
    connect_phase P w =
      (Ok b, {| files := files w;
                history := history w ++ join_events ++ poll_rounds k
                             ++ (if b then [Exec probe_cmd] else []) |})
    /\ (if b then (k < 20)%nat else k = 20%nat).
Proof.
  rewrite connect_phase_eq.
  destruct (is_connected_to_wifi_rounds 20
              {| files := files w; history := history w ++ join_events |})
    as (k & b & Hrun & _ & Hend).
  exists k, b. rewrite Hrun. simpl. rewrite <- !app_assoc. split; [reflexivity|].
  destruct b; tauto.
Qed.

Lemma connect_phase_files w b w1 :
  connect_phase P w = (Ok b, w1) -> files w1 = files w.
Proof.
  destruct (connect_phase_returns w) as (k & b' & Hrun & _).
  rewrite Hrun. intros [= _ <-]. reflexivity.
Qed.

Lemma connect_phase_never_raises w e w1 :
  connect_phase P w <> (Raise e, w1).
Proof.
  destruct (connect_phase_returns w) as (k & b' & Hrun & _).
  rewrite Hrun. discriminate.
Qed.

(** The verdict of the poll of step 5, in terms of what the probes show:
    it is positive exactly when one of the 20 probes shows an address, and
    the poll stops at the first that does. *)
Lemma connect_phase_true_iff w0 w1 :
  connect_phase P w0 = (Ok true, w1) <->
  exists k : nat,
    (k < 20)%nat
    /\ (forall j, (j < k)%nat ->
          address_seen P (history w0 ++ join_events ++ poll_rounds j) = false)
    /\ address_seen P (history w0 ++ join_events ++ poll_rounds k) = true
    /\ w1 = {| files := files w0;
               history := history w0 ++ join_events ++ poll_rounds k
                            ++ [Exec probe_cmd] |}.
Proof.
  rewrite connect_phase_eq.
  destruct (is_connected_to_wifi_rounds 20
              {| files := files w0; history := history w0 ++ join_events |})
    as (k & b & Hrun & Hneg & Hend).
  rewrite Hrun. cbn [files history] in *.
  split.
  - intros [= -> <-]. destruct Hend as [Hlt Hpos].
    exists k. split; [exact Hlt|]. split.
    + intros j Hj. rewrite app_assoc. apply Hneg, Hj.
    + split; [rewrite app_assoc; exact Hpos|].
      rewrite <- app_assoc. reflexivity.
  - intros (k' & Hlt' & Hneg' & Hpos' & ->).
    rewrite app_assoc in Hpos'.
    destruct b.
    + destruct Hend as [Hlt Hpos].
      assert (k = k') as <-.
      { destruct (Nat.lt_trichotomy k k') as [H|[H|H]]; [|exact H|].
        - specialize (Hneg' k H). rewrite app_assoc in Hneg'. congruence.
        - specialize (Hneg k' H). congruence. }
      rewrite <- app_assoc. reflexivity.
    + subst k. specialize (Hneg k' Hlt'). congruence.
Qed.

(** *** The handler, one [try] at a time *)

Lemma provision_steps_eq f w0 :
  provision_steps P f w0 =
    match connect_phase P w0 with
    | (Raise e, w1) => (Raise e, w1)
    | (Ok false, w1) =>
        match restore_ap_mode P w1 with
        | (Ok _, w2) => (Ok resp_connect_failed, w2)
        | (Raise e, w2) => (Raise e, w2)
        end
    | (Ok true, w1) =>
        let w2 := record (edge_post P f) w1 in
        match edge_call P (history w1) f with
        | Responded code text =>
            if code =? 200 then finish_phase P w2
            else match restore_ap_mode P w2 with
                 | (Ok _, w3) => (Ok (resp_edge_failed text), w3)
                 | (Raise e, w3) => (Raise e, w3)
                 end
        | PostRaises e =>
            if is_RequestException e
            then match restore_ap_mode P w2 with
                 | (Ok _, w3) => (Ok (resp_edge_unreachable e), w3)
                 | (Raise e', w3) => (Raise e', w3)
                 end
            else (Raise e, w2)
        end
    end.
Proof.
  unfold provision_steps, bind at 1.
  destruct (connect_phase P w0) as [[[|]|e] w1]; simpl; try reflexivity.
  unfold bind at 1, register_phase, try_except, bind at 1, requests_post,
      edge_call, edge_post.
  destruct (net_post P (history w1) _ _ _ 15) as [code text|e]; simpl.
  - destruct (code =? 200); simpl.
    + reflexivity.
    + unfold bind at 1. rewrite restore_ap_mode_eq. simpl.
      destruct (os_open_w P _ AP_RESTORED_FILE); reflexivity.
  - destruct (is_RequestException e); simpl; [|reflexivity].
    unfold bind at 1.
    destruct (restore_ap_mode P _) as [[[]|e'] w3]; reflexivity.
Qed.

Lemma provision_guarded_eq f w0 :
  provision_guarded P f w0 =
    match provision_steps P f w0 with
    | (Ok r, w1) => (Ok r, w1)
    | (Raise e, w1) =>
        match restore_ap_mode P w1 with
        | (Ok _, w2) => (Ok (resp_provisioning_failed e), w2)
        | (Raise e', w2) => (Raise e', w2)
        end
    end.
Proof.
  unfold provision_guarded, try_except.
  destruct (provision_steps P f w0) as [[r|e] w1]; [reflexivity|].
  unfold bind. destruct (restore_ap_mode P w1) as [[[]|e'] w2]; reflexivity.
Qed.

Lemma provision_eq req w :
  provision P req w =
    match provision_prologue P req w with
    | (Raise e, w0) => (Ok (resp_invalid_request e), w0)
    | (Ok (inl r), w0) => (Ok r, w0)
    | (Ok (inr f), w0) =>
        match provision_guarded P f w0 with
        | (Ok r, w1) => (Ok r, w1)
        | (Raise e, w1) => (Ok (resp_invalid_request e), w1)
        end
    end.
Proof.
  unfold provision, try_except, bind.
  destruct (provision_prologue P req w) as [[[r|f]|e] w0]; reflexivity.
Qed.

(** *** The prologue *)

Lemma bind_ret {A B} (a : A) (k : A -> M B) w : bind (ret a) k w = k a w.
Proof. reflexivity. Qed.

Lemma truthy_py_and x y : truthy (py_and x y) = truthy x && truthy y.
Proof. unfold py_and. destruct (truthy x) eqn:E; simpl; [reflexivity | exact E]. Qed.

Lemma py_or_object members : py_or (JObj members) (JObj []) = JObj members.
Proof. destruct members; reflexivity. Qed.

(** A progress line either passes and changes nothing, or raises. *)
Lemma print_value_eq prefix v suffix w :
  print_value prefix v suffix w =
    match print_error prefix v suffix with
    | Some e => (Raise e, w)
    | None => (Ok tt, w)
    end.
Proof.
  unfold print_value, print_error, py_print.
  destruct v; try reflexivity.
  destruct (encode_error _); reflexivity.
Qed.

Lemma slice8_eq token w :
  slice8 token w =
    match slice_error token with
    | Some e => (Raise e, w)
    | None => (Ok tt, w)
    end.
Proof. destruct token; reflexivity. Qed.

(** The three ways a write can end. *)
Lemma write_file_cases path content w res w' :
  write_file P path content w = (res, w') ->
  history w' = history w ++ [FileWrite path content]
  /\ ((os_open_w P (history w) path <> None
       /\ files w' = files w /\ exists msg, res = Raise (Exn OSError msg))
      \/ (os_open_w P (history w) path = None
          /\ files w' = <[path := ""]> (files w)
          /\ exists e, encode_error content = Some e /\ res = Raise e)
      \/ (os_open_w P (history w) path = None
          /\ encode_error content = None
          /\ files w' = <[path := content]> (files w) /\ res = Ok tt)).
Proof.
  unfold write_file.
  destruct (os_open_w P (history w) path) as [msg|].
  - intros [= <- <-]. split; [reflexivity|]. left.
    split; [discriminate|]. split; [reflexivity|]. eexists; reflexivity.
  - destruct (encode_error content) as [e|];
      intros [= <- <-]; (split; [reflexivity|]); right.
    + left. split; [reflexivity|]. split; [reflexivity|].
      exists e. split; reflexivity.
    + right. repeat split.
Qed.

(** The prologue, test by test. *)
Lemma provision_prologue_eq req w :
  provision_prologue P req w =
    match req with
    | Undecodable msg => (Raise (Exn BadRequest msg), w)
    | Decoded data =>
        match py_or data (JObj []) with
        | JObj members =>
            let f := request_fields members in
            if truthy (f_token f) && truthy (f_ssid f) && truthy (f_password f)
            then match progress_error f with
                 | Some e => (Raise e, w)
                 | None =>
                     match write_file P tmp_path (join_config P f) w with
                     | (Ok _, w0) => (Ok (inr f), w0)
                     | (Raise e, w0) => (Raise e, w0)
                     end
                 end
            else (Ok (inl resp_missing_fields), w)
        | other =>
            (Raise (Exn AttributeError
                      ("'" ++ type_name other
                           ++ "' object has no attribute 'get'")), w)
        end
    end.
Proof.
  destruct req as [msg|data]; [reflexivity|].
  unfold provision_prologue. cbn [get_json]. rewrite bind_ret. cbv beta zeta.
  destruct (py_or data (JObj [])) as [ |b|n|x|s|items|members];
    try reflexivity.
  unfold data_get. cbv beta iota.
  do 4 (rewrite bind_ret; cbv beta).
  rewrite !truthy_py_and.
  unfold request_fields, progress_error, join_config.
  cbn [f_token f_ssid f_password f_device_name].
  set (token := default JNull (dict_lookup "token" members)).
  set (ssid := default JNull (dict_lookup "ssid" members)).
  set (password := default JNull (dict_lookup "password" members)).
  set (device_name := default (JStr "EVVOS_0001")
                              (dict_lookup "device_name" members)).
  destruct (truthy token && truthy ssid && truthy password);
    cbn [negb]; [|reflexivity].
  unfold bind at 1. rewrite print_value_eq.
  destruct (print_error "   SSID: " ssid ""); [reflexivity|].
  unfold bind at 1. rewrite print_value_eq.
  destruct (print_error "   Device: " device_name ""); [reflexivity|].
  unfold bind at 1. rewrite slice8_eq.
  destruct (slice_error token); [reflexivity|].
  unfold bind at 1. rewrite print_value_eq.
  destruct (print_error "   Token: " (first8 token) "..."); [reflexivity|].
  unfold bind at 1.
  destruct (write_file P tmp_path _ w) as [[[]|e] w0]; reflexivity.
Qed.

(** The prologue either answers 400 at once, or raises, or has issued the
    write of the temporary configuration and nothing else; when that write
    raises, the file is as it was (it did not open) or empty (the text could
    not be encoded). *)
Lemma provision_prologue_cases req w res w0 :
  provision_prologue P req w = (res, w0) ->
  (w0 = w /\ (res = Ok (inl resp_missing_fields) \/ exists e, res = Raise e))
  \/ (exists conf,
        history w0 = history w ++ [FileWrite tmp_path conf]
        /\ (((files w0 = files w \/ files w0 = <[tmp_path := ""]> (files w))
             /\ exists e, res = Raise e)
            \/ (files w0 = <[tmp_path := conf]> (files w)
                /\ exists f, res = Ok (inr f)))).
Proof.
  rewrite provision_prologue_eq.
  destruct req as [msg|data].
  { intros [= <- <-]. left. split; [reflexivity|]. right. eexists; reflexivity. }
  destruct (py_or data (JObj [])) as [ |b|n|x|s|items|members];
    try (intros [= <- <-]; left; split; [reflexivity|]; right;
         eexists; reflexivity).
  cbv zeta.
  destruct (truthy _ && truthy _ && truthy _).
  - destruct (progress_error _) as [e|].
    + intros [= <- <-]. left. split; [reflexivity|]. right. eexists; reflexivity.
    + destruct (write_file P tmp_path _ w) as [[[]|e] w1] eqn:Hw;
        intros [= <- <-];
        apply write_file_cases in Hw;
        destruct Hw as (Hh & [(_ & Hf & msg & Hr) | [(_ & Hf & e' & _ & Hr)
                                                    | (_ & _ & Hf & Hr)]]);
        try discriminate; right; eexists; (split; [exact Hh|]).
      * right. split; [exact Hf | eexists; reflexivity].
      * left. split; [left; exact Hf | eexists; reflexivity].
      * left. split; [right; exact Hf | eexists; reflexivity].
  - intros [= <- <-]. left. split; [reflexivity|]. left. reflexivity.
Qed.

(** An accepted request: what it is and what the prologue has done. *)
Lemma provision_prologue_accepted req w f w0 :
  provision_prologue P req w = (Ok (inr f), w0) <->
  exists members,
    req = Decoded (JObj members)
    /\ f = request_fields members
    /\ truthy (f_token f) = true
    /\ truthy (f_ssid f) = true
    /\ truthy (f_password f) = true
    /\ progress_error f = None
    /\ os_open_w P (history w) tmp_path = None
    /\ encode_error (join_config P f) = None
    /\ w0 = {| files := <[tmp_path := join_config P f]> (files w);
               history := history w ++ [FileWrite tmp_path (join_config P f)] |}.
Proof.
  rewrite provision_prologue_eq. split.
  - destruct req as [msg|data]; [discriminate|].
    destruct data as [ |b|n|x|s|items|members];
      try (unfold py_or; destruct (truthy _); discriminate).
    rewrite py_or_object. cbv zeta.
    destruct (truthy (f_token _)) eqn:Ht; [|discriminate].
    destruct (truthy (f_ssid _)) eqn:Hs; [|discriminate].
    destruct (truthy (f_password _)) eqn:Hp; [|discriminate].
    cbn [andb].
    destruct (progress_error _) eqn:Hprog; [discriminate|].
    unfold write_file.
    destruct (os_open_w P (history w) tmp_path) eqn:Ho; [discriminate|].
    destruct (encode_error _) eqn:He; [discriminate|].
    intros [= <- <-]. exists members. repeat split; assumption.
  - intros (members & -> & -> & Ht & Hs & Hp & Hprog & Ho & He & ->).
    rewrite py_or_object. cbv zeta. rewrite Ht, Hs, Hp, Hprog.
    unfold write_file. rewrite Ho, He. reflexivity.
Qed.

End Helpers.

(** ** Request validation *)

Lemma prologue_rejects P req w :
  absent_or_empty req "token" \/ absent_or_empty req "ssid"
    \/ absent_or_empty req "password" ->
  (exists members, req = Decoded (JObj members)
     /\ provision_prologue P req w = (Ok (inl resp_missing_fields), w))
  \/ ((forall members, req <> Decoded (JObj members))
      /\ (provision_prologue P req w = (Ok (inl resp_missing_fields), w)
          \/ exists e, provision_prologue P req w = (Raise e, w))).
Proof.
  unfold absent_or_empty. intros Hmiss.
  rewrite provision_prologue_eq.
  destruct req as [msg|data].
  - right. split; [discriminate|]. right. eexists. reflexivity.
  - destruct data as [ |b|n|x|s|items|members];
      try (right; split; [discriminate|]; clear Hmiss;
           unfold py_or; destruct (truthy _);
           [right; eexists; reflexivity | left; reflexivity]).
    left. exists members. split; [reflexivity|].
    rewrite py_or_object. cbv zeta.
    unfold request_fields. cbn [f_token f_ssid f_password].
    cbn [field_of] in Hmiss.
    assert (Hfalse : truthy (default JNull (dict_lookup "token" members))
                     && truthy (default JNull (dict_lookup "ssid" members))
                     && truthy (default JNull (dict_lookup "password" members))
                     = false).
    { destruct Hmiss as [H|[H|H]]; rewrite H;
        rewrite ?andb_false_r, ?andb_false_l; reflexivity. }
    rewrite Hfalse. reflexivity.
Qed.

(** C5. Every POST /provision whose token, ssid or password is absent or
    empty is answered 400 with [ok: false], and the world is left exactly as
    it was: no file is written (neither the join configuration nor a
    marker) and no command is issued (no AP service is stopped or started).
    When the body is a JSON object the reply is the "Missing fields" one. *)
Theorem missing_fields_rejected_without_effect P req w :
  absent_or_empty req "token" \/ absent_or_empty req "ssid"
    \/ absent_or_empty req "password" ->
  exists r,
    provision P req w = (Ok r, w)
    /\ status r = 400
    /\ dict_lookup "ok" (body r) = Some (JBool false)
    /\ (forall members, req = Decoded (JObj members) -> r = resp_missing_fields).
Proof.
  intros Hmiss. rewrite provision_eq.
  destruct (prologue_rejects P req w Hmiss)
    as [(members & Hreq & Hrun) | (Hnot & [Hrun | (e & Hrun)])];
    rewrite Hrun; eexists; (split; [reflexivity|]);
    repeat split; try reflexivity.
  intros members' Hreq'. exfalso. exact (Hnot _ Hreq').
Qed.

(** ** The connectivity poll *)

(** C9. The poll issues at most [max_retries] probes (20 at its call
    site), sleeps one second after every negative probe, returns [True] at
    the first positive probe with nothing issued after it, and returns
    [False] exactly when all [max_retries] probes are negative; the time
    slept is the number of negative probes, hence at most [max_retries]
    seconds. *)
Theorem is_connected_to_wifi_bounded_poll P (max_retries : nat) (w : world) :
  exists (k : nat) (b : bool),
    let evs := poll_rounds k ++ (if b then [Exec probe_cmd] else []) in
    is_connected_to_wifi P max_retries w
      = (Ok b, {| files := files w; history := history w ++ evs |})
    /\ (probes_issued evs <= max_retries)%nat
    /\ seconds_slept evs = Z.of_nat k
    /\ (k <= max_retries)%nat
    /\ (forall j, (j < k)%nat ->
          address_seen P (history w ++ poll_rounds j) = false)
    /\ (b = true -> address_seen P (history w ++ poll_rounds k) = true)
    /\ (b = false <->
        forall j, (j < max_retries)%nat ->
          address_seen P (history w ++ poll_rounds j) = false).
Proof.
  destruct (is_connected_to_wifi_rounds P max_retries w)
    as (k & b & Hrun & Hneg & Hend).
  exists k, b. cbv zeta. split; [exact Hrun|].
  rewrite probes_issued_app, seconds_slept_app, poll_rounds_probes,
    poll_rounds_slept.
  destruct b.
  - destruct Hend as [Hlt Hpos].
    repeat split; try (intros; discriminate); auto.
    + replace (probes_issued [Exec probe_cmd]) with 1%nat by reflexivity. lia.
    + simpl. lia.
    + lia.
    + intros Hall. specialize (Hall k Hlt). congruence.
  - subst k. repeat split; auto.
    + unfold probes_issued; simpl. lia.
    + simpl. lia.
    + intros; discriminate.
Qed.

(** ** Rollback *)

(** C7, as the code has it.  The two service-start commands of
    [restore_ap_mode] never change its result, whatever happens to them: two
    platforms that agree on file opening give the same result.  The marker
    write alone decides: when the file opens, the rollback returns with the
    AP-restored marker present; when opening raises, that [OSError] leaves
    [restore_ap_mode]. *)
Theorem restore_ap_mode_marker_decides P (w : world) :
  let h := history w ++ [Exec "systemctl start hostapd";
                         Exec "systemctl start dnsmasq"] in
  (forall P', os_open_w P' = os_open_w P ->
     restore_ap_mode P' w = restore_ap_mode P w)
  /\ (os_open_w P h AP_RESTORED_FILE = None ->
      restore_ap_mode P w
        = (Ok tt, {| files := <[AP_RESTORED_FILE := ""]> (files w);
                     history := h ++ [FileWrite AP_RESTORED_FILE ""] |}))
  /\ (forall msg, os_open_w P h AP_RESTORED_FILE = Some msg ->
      restore_ap_mode P w
        = (Raise (Exn OSError msg),
           {| files := files w;
              history := h ++ [FileWrite AP_RESTORED_FILE ""] |})).
Proof.
  cbv zeta. repeat split.
  - intros P' Hopen. rewrite !restore_ap_mode_eq. cbv zeta. rewrite Hopen.
    reflexivity.
  - intros Hopen. rewrite restore_ap_mode_eq. cbv zeta. rewrite Hopen.
    unfold rollback_events. rewrite <- app_assoc. reflexivity.
  - intros msg Hopen. rewrite restore_ap_mode_eq. cbv zeta. rewrite Hopen.
    unfold rollback_events. rewrite <- app_assoc. reflexivity.
Qed.

(** ** Frames: which files each phase can touch *)

Lemma marker_paths_distinct :
  tmp_path <> PROVISIONED_FILE /\ tmp_path <> AP_RESTORED_FILE
  /\ AP_RESTORED_FILE <> PROVISIONED_FILE.
Proof. repeat split; discriminate. Qed.

Lemma restore_ap_mode_frame P w res w' :
  restore_ap_mode P w = (res, w') ->
  history w' = history w ++ rollback_events
  /\ files w' !! PROVISIONED_FILE = files w !! PROVISIONED_FILE
  /\ ((res = Ok tt /\ files w' !! AP_RESTORED_FILE = Some "")
      \/ (exists msg, res = Raise (Exn OSError msg)) /\ files w' = files w).
Proof.
  rewrite restore_ap_mode_eq. cbv zeta.
  destruct (os_open_w P _ AP_RESTORED_FILE) as [msg|]; intros [= <- <-]; simpl.
  - repeat split. right. split; [eexists|]; reflexivity.
  - split; [reflexivity|]. split.
    + apply lookup_insert_ne. discriminate.
    + left. split; [reflexivity|]. apply lookup_insert_eq.
Qed.

Lemma provision_prologue_frame P req w f w0 :
  provision_prologue P req w = (Ok (inr f), w0) ->
  files w0 !! PROVISIONED_FILE = files w !! PROVISIONED_FILE
  /\ files w0 !! AP_RESTORED_FILE = files w !! AP_RESTORED_FILE.
Proof.
  intros H. apply provision_prologue_cases in H.
  destruct H as [[_ [H|[e H]]] | (conf & _ & [[_ [e H]] | [Hf _]])];
    try discriminate.
  rewrite Hf. split; apply lookup_insert_ne; discriminate.
Qed.


(** *** What an attempt does to the provisioned marker *)

(** The inner block either succeeds, having passed the poll and the
    registration and having written the marker, or it ends otherwise and
    leaves the marker as it found it. *)
Lemma provision_steps_flag P f w0 res w' :
  provision_steps P f w0 = (res, w') ->
  (res = Ok resp_success
   /\ exists w1 text,
        connect_phase P w0 = (Ok true, w1)
        /\ edge_call P (history w1) f = Responded 200 text
        /\ os_open_w P (history w1 ++ [edge_post P f]) PROVISIONED_FILE = None
        /\ w' = {| files := <[PROVISIONED_FILE := "1"]> (files w1);
                   history := (history w1 ++ [edge_post P f]) ++ finish_events |})
  \/ ((forall r, res = Ok r -> status r <> 200)
      /\ files w' !! PROVISIONED_FILE = files w0 !! PROVISIONED_FILE).
Proof.
  rewrite provision_steps_eq.
  destruct (connect_phase P w0) as [[[|]|e] w1] eqn:Hc.
  - pose proof (connect_phase_files P _ _ _ Hc) as Hf. cbv zeta.
    destruct (edge_call P (history w1) f) as [code text|e] eqn:He.
    + destruct (code =? 200) eqn:Hcode.
      * apply Z.eqb_eq in Hcode. subst code.
        rewrite finish_phase_eq. simpl.
        destruct (os_open_w P (history w1 ++ [edge_post P f]) PROVISIONED_FILE)
          as [msg|] eqn:Ho; intros [= <- <-].
        -- right. split; [intros r; discriminate|]. simpl. now rewrite Hf.
        -- left. split; [reflexivity|]. exists w1, text. auto.
      * destruct (restore_ap_mode P _) as [[[]|e] w3] eqn:Hr;
          intros [= <- <-]; right;
          apply restore_ap_mode_frame in Hr; destruct Hr as (_ & Hp & _);
          (split; [intros r [= <-]; discriminate || (simpl; lia)|]);
          rewrite Hp; simpl; now rewrite Hf.
    + destruct (is_RequestException e).
      * destruct (restore_ap_mode P _) as [[[]|e'] w3] eqn:Hr;
          intros [= <- <-]; right;
          apply restore_ap_mode_frame in Hr; destruct Hr as (_ & Hp & _);
          (split; [intros r [= <-]; discriminate || (simpl; lia)|]);
          rewrite Hp; simpl; now rewrite Hf.
      * intros [= <- <-]. right. split; [intros r; discriminate|].
        simpl. now rewrite Hf.
  - pose proof (connect_phase_files P _ _ _ Hc) as Hf.
    destruct (restore_ap_mode P w1) as [[[]|e] w2] eqn:Hr;
      intros [= <- <-]; right;
      apply restore_ap_mode_frame in Hr; destruct Hr as (_ & Hp & _);
      (split; [intros r [= <-]; discriminate || (simpl; lia)|]);
      rewrite Hp; now rewrite Hf.
  - exfalso. exact (connect_phase_never_raises P _ _ _ Hc).
Qed.

Lemma provision_returns P req w :
  exists r w', provision P req w = (Ok r, w').
Proof.
  rewrite provision_eq.
  destruct (provision_prologue P req w) as [[[r|f]|e] w0]; eauto.
  destruct (provision_guarded P f w0) as [[r|e] w1]; eauto.
Qed.

Lemma provision_flag P req w r w' :
  provision P req w = (Ok r, w') ->
  (r = resp_success
   /\ exists f w0 w1 text,
        provision_prologue P req w = (Ok (inr f), w0)
        /\ connect_phase P w0 = (Ok true, w1)
        /\ edge_call P (history w1) f = Responded 200 text
        /\ os_open_w P (history w1 ++ [edge_post P f]) PROVISIONED_FILE = None
        /\ w' = {| files := <[PROVISIONED_FILE := "1"]> (files w1);
                   history := (history w1 ++ [edge_post P f]) ++ finish_events |})
  \/ (status r <> 200
      /\ files w' !! PROVISIONED_FILE = files w !! PROVISIONED_FILE).
Proof.
  rewrite provision_eq.
  destruct (provision_prologue P req w) as [[[r0|f]|e] w0] eqn:Hp.
  - intros [= <- <-]. right.
    apply provision_prologue_cases in Hp.
    destruct Hp as [[-> [[= ->]|[e H]]] | (conf & _ & [[_ [e H]] | [_ [f H]]])];
      try discriminate.
    split; [simpl; lia | reflexivity].
  - pose proof (provision_prologue_frame P _ _ _ _ Hp) as [Hfp _].
    rewrite provision_guarded_eq.
    destruct (provision_steps P f w0) as [[r0|e] w1] eqn:Hs.
    + intros [= <- <-].
      destruct (provision_steps_flag P _ _ _ _ Hs)
        as [([= ->] & w1' & text & Hc & He & Ho & Hw) | (Hfail & Hfiles)].
      * left. split; [reflexivity|]. exists f, w0, w1', text. auto.
      * right. split; [apply Hfail; reflexivity | congruence].
    + destruct (provision_steps_flag P _ _ _ _ Hs)
        as [([=] & _) | (_ & Hfiles)].
      destruct (restore_ap_mode P w1) as [[[]|e'] w2] eqn:Hr;
        intros [= <- <-]; right;
        apply restore_ap_mode_frame in Hr; destruct Hr as (_ & Hq & _);
        (split; [simpl; lia | congruence]).
  - intros [= <- <-]. right. split; [simpl; lia|].
    apply provision_prologue_cases in Hp.
    destruct Hp as [[-> _] | (conf & _ & [[[-> | ->] _] | [_ [f H]]])];
      try discriminate; try reflexivity.
    apply lookup_insert_ne. discriminate.
Qed.

(** ** The provisioned marker *)

Lemma provision_succeeds P req w f w0 w1 text :
  provision_prologue P req w = (Ok (inr f), w0) ->
  connect_phase P w0 = (Ok true, w1) ->
  edge_call P (history w1) f = Responded 200 text ->
  os_open_w P (history w1 ++ [edge_post P f]) PROVISIONED_FILE = None ->
  exists w', provision P req w = (Ok resp_success, w').
Proof.
  intros Hp Hc He Ho.
  rewrite provision_eq, Hp, provision_guarded_eq, provision_steps_eq, Hc.
  cbv zeta. rewrite He. simpl. rewrite finish_phase_eq. simpl. rewrite Ho.
  eexists. reflexivity.
Qed.

Lemma provision_status_reports v :
  exists b,
    provision_status v = (Ok (status_reply b), v)
    /\ (b = true <-> is_Some (files v !! PROVISIONED_FILE)).
Proof.
  unfold provision_status, path_exists.
  destruct (bool_decide (is_Some (files v !! PROVISIONED_FILE))) eqn:Hb.
  - exists true. split; [reflexivity|].
    apply bool_decide_eq_true in Hb. tauto.
  - exists false. split; [reflexivity|].
    apply bool_decide_eq_false in Hb. split; [discriminate | contradiction].
Qed.

(** C1, as the code has it.  An attempt is always answered, and the
    provisioned marker exists after it exactly when it existed before or the
    attempt ended with the 200 success reply.  That reply is given exactly
    when the request was accepted, one of the 20 probes of the poll showed an
    address (the [k] probes before it showed none), the registration call
    issued right after that probe answered status 200, and the marker file
    then opened for writing; the marker then holds "1".  An attempt that
    ends otherwise leaves the marker entry as it found it: no failure path
    sets it and nothing ever deletes it.  GET /provision-status changes
    nothing and answers [provisioned: true] exactly when the marker file
    exists; asked after the attempt, it answers [true] exactly when the
    marker was there before or the attempt succeeded. *)
Theorem provisioned_flag_iff_full_success P req w :
  exists r w',
    provision P req w = (Ok r, w')
    /\ (is_Some (files w' !! PROVISIONED_FILE)
        <-> is_Some (files w !! PROVISIONED_FILE) \/ r = resp_success)
    /\ (r = resp_success <->
        exists f w0 k text,
          provision_prologue P req w = (Ok (inr f), w0)
          /\ (k < 20)%nat
          /\ (forall j, (j < k)%nat ->
                address_seen P (history w0 ++ join_events ++ poll_rounds j)
                = false)
          /\ address_seen P (history w0 ++ join_events ++ poll_rounds k) = true
          /\ edge_call P (history w0 ++ join_events ++ poll_rounds k
                            ++ [Exec probe_cmd]) f
             = Responded 200 text
          /\ os_open_w P (history w0 ++ join_events ++ poll_rounds k
                            ++ [Exec probe_cmd; edge_post P f])
                       PROVISIONED_FILE = None)
    /\ (r = resp_success -> files w' !! PROVISIONED_FILE = Some "1")
    /\ (r <> resp_success ->
        files w' !! PROVISIONED_FILE = files w !! PROVISIONED_FILE)
    /\ (forall v, exists b,
          provision_status v = (Ok (status_reply b), v)
          /\ (b = true <-> is_Some (files v !! PROVISIONED_FILE)))
    /\ (fst (provision_status w') = Ok (status_reply true)
        <-> is_Some (files w !! PROVISIONED_FILE) \/ r = resp_success).
Proof.
  destruct (provision_returns P req w) as (r & w' & Hrun).
  exists r, w'. split; [exact Hrun|].
  assert (Hconv : (exists f w0 k text,
                      provision_prologue P req w = (Ok (inr f), w0)
                      /\ (k < 20)%nat
                      /\ (forall j, (j < k)%nat ->
                            address_seen P (history w0 ++ join_events
                                              ++ poll_rounds j) = false)
                      /\ address_seen P (history w0 ++ join_events
                                           ++ poll_rounds k) = true
                      /\ edge_call P (history w0 ++ join_events ++ poll_rounds k
                                        ++ [Exec probe_cmd]) f
                         = Responded 200 text
                      /\ os_open_w P (history w0 ++ join_events ++ poll_rounds k
                                        ++ [Exec probe_cmd; edge_post P f])
                                   PROVISIONED_FILE = None)
                  -> r = resp_success).
  { intros (f & w0 & k & text & Hp & Hlt & Hneg & Hpos & He & Ho).
    assert (Hc : connect_phase P w0
                 = (Ok true,
                    {| files := files w0;
                       history := history w0 ++ join_events ++ poll_rounds k
                                    ++ [Exec probe_cmd] |})).
    { apply connect_phase_true_iff. exists k. auto. }
    assert (Ho' : os_open_w P ((history w0 ++ join_events ++ poll_rounds k
                                  ++ [Exec probe_cmd]) ++ [edge_post P f])
                            PROVISIONED_FILE = None).
    { rewrite <- !app_assoc. exact Ho. }
    destruct (provision_succeeds P _ _ _ _ _ _ Hp Hc He Ho') as [w'' Hok].
    congruence. }
  assert (Hflag : (is_Some (files w' !! PROVISIONED_FILE)
                   <-> is_Some (files w !! PROVISIONED_FILE) \/ r = resp_success)
                  /\ (r = resp_success ->
                      files w' !! PROVISIONED_FILE = Some "1"
                      /\ exists f w0 k text,
                           provision_prologue P req w = (Ok (inr f), w0)
                           /\ (k < 20)%nat
                           /\ (forall j, (j < k)%nat ->
                                 address_seen P (history w0 ++ join_events
                                                   ++ poll_rounds j) = false)
                           /\ address_seen P (history w0 ++ join_events
                                                ++ poll_rounds k) = true
                           /\ edge_call P (history w0 ++ join_events
                                             ++ poll_rounds k
                                             ++ [Exec probe_cmd]) f
                              = Responded 200 text
                           /\ os_open_w P (history w0 ++ join_events
                                             ++ poll_rounds k
                                             ++ [Exec probe_cmd; edge_post P f])
                                        PROVISIONED_FILE = None)
                  /\ (r <> resp_success ->
                      files w' !! PROVISIONED_FILE
                      = files w !! PROVISIONED_FILE)).
  { destruct (provision_flag P _ _ _ _ Hrun)
      as [(-> & f & w0 & w1 & text & Hp & Hc & He & Ho & ->) | (Hfail & Hfiles)].
    - apply connect_phase_true_iff in Hc.
      destruct Hc as (k & Hlt & Hneg & Hpos & ->).
      cbn [files history] in *.
      split; [|split].
      + split; [intros _; right; reflexivity|].
        intros _. rewrite lookup_insert_eq. eauto.
      + intros _. split; [apply lookup_insert_eq|].
        exists f, w0, k, text. rewrite <- !app_assoc in Ho.
        repeat split; assumption.
      + intros Hne. exfalso. apply Hne. reflexivity.
    - assert (Hne : r <> resp_success) by (intros ->; apply Hfail; reflexivity).
      split; [|split].
      + rewrite Hfiles. split; [auto|]. intros [H|H]; [exact H | contradiction].
      + intros H. contradiction.
      + intros _. exact Hfiles. }
  destruct Hflag as (Hiff & Hsuccess & Hother).
  split; [exact Hiff|]. split.
  { split; [intros H; apply (Hsuccess H) | exact Hconv]. }
  split; [intros H; apply (Hsuccess H)|].
  split; [exact Hother|].
  split; [apply provision_status_reports|].
  destruct (provision_status_reports w') as (b & Hb & Hmarker).
  rewrite Hb, <- Hiff, <- Hmarker. cbn [fst].
  destruct b; split; intros H; try reflexivity; discriminate H.
Qed.

(** C10. Whenever the handler answers 200, the reply is the success reply,
    the provisioned marker holds "1", and the last four interactions of the
    attempt are, in this order: writing the marker, stopping hostapd,
    stopping dnsmasq and stopping the provision-server service itself.  The
    three stop commands are issued through [run] with check=False, so their
    outcome cannot change the reply. *)
Theorem success_stops_provision_server P req w r w' :
  provision P req w = (Ok r, w') ->
  status r = 200 ->
  r = resp_success
  /\ files w' !! PROVISIONED_FILE = Some "1"
  /\ exists h,
       history w' = h ++ [FileWrite PROVISIONED_FILE "1";
                          Exec "systemctl stop hostapd";
                          Exec "systemctl stop dnsmasq";
                          Exec "systemctl stop provision-server"].
Proof.
  intros Hrun H200.
  destruct (provision_flag P _ _ _ _ Hrun)
    as [(-> & f & w0 & w1 & text & Hp & Hc & He & Ho & ->) | (Hfail & _)];
    [|contradiction].
  split; [reflexivity|]. split.
  - simpl. apply lookup_insert_eq.
  - exists (history w1 ++ [edge_post P f]). reflexivity.
Qed.

(** ** Failure paths *)

(** C2, as the code has it.  When the request was accepted, the poll ran
    out of attempts and the AP-restored marker can be opened for writing,
    the handler starts hostapd and dnsmasq, creates the marker and answers
    with the 400 "Failed to connect to hotspot" reply; the provisioned
    marker is left as it was. *)
Theorem connect_failure_restores_ap P req w f w0 w1 :
  provision_prologue P req w = (Ok (inr f), w0) ->
  connect_phase P w0 = (Ok false, w1) ->
  os_open_w P (history w1 ++ [Exec "systemctl start hostapd";
                              Exec "systemctl start dnsmasq"])
            AP_RESTORED_FILE = None ->
  exists w',
    provision P req w = (Ok resp_connect_failed, w')
    /\ status resp_connect_failed = 400
    /\ history w' = history w1 ++ [Exec "systemctl start hostapd";
                                   Exec "systemctl start dnsmasq";
                                   FileWrite AP_RESTORED_FILE ""]
    /\ files w' !! AP_RESTORED_FILE = Some ""
    /\ files w' !! PROVISIONED_FILE = files w !! PROVISIONED_FILE.
Proof.
  intros Hp Hc Ho.
  rewrite provision_eq, Hp, provision_guarded_eq, provision_steps_eq, Hc,
    restore_ap_mode_eq. cbv zeta. rewrite Ho.
  eexists. split; [reflexivity|]. split; [reflexivity|].
  split; [reflexivity|]. simpl. split.
  - apply lookup_insert_eq.
  - rewrite lookup_insert_ne by discriminate.
    rewrite (connect_phase_files P _ _ _ Hc).
    apply (provision_prologue_frame P _ _ _ _ Hp).
Qed.



(** C6, as the code has it.  The handler always answers: no exception
    leaves it.  An exception raised before the inner [try] (decoding the
    body, reading the fields, printing the ssid and the device name, slicing
    and printing the token, writing the temporary configuration) is answered
    400 "Invalid request" with its text as detail, and nothing is rolled
    back: the world is the one the prologue left, which is the world before
    the call or differs from it by the write of the temporary configuration
    alone, that file being as it was (it did not open) or empty (its text
    could not be encoded).
    An exception raised inside the inner [try] is followed by the rollback
    (both start commands and the marker write are issued) before the reply,
    which is 500 "Provisioning failed" with the exception's text as detail
    when the marker opens, and 400 "Invalid request" with the rollback's
    own error when it does not. *)
Theorem exceptions_caught_rollback_inside_inner_try P req w :
  (exists r w', provision P req w = (Ok r, w'))
  /\ (forall e w0,
        provision_prologue P req w = (Raise e, w0) ->
        provision P req w = (Ok (resp_invalid_request e), w0)
        /\ (w0 = w
            \/ exists conf,
                 history w0 = history w ++ [FileWrite tmp_path conf]
                 /\ (files w0 = files w
                     \/ files w0 = <[tmp_path := ""]> (files w))))
  /\ (forall f w0 e w1,
        provision_prologue P req w = (Ok (inr f), w0) ->
        provision_steps P f w0 = (Raise e, w1) ->
        let h := history w1 ++ [Exec "systemctl start hostapd";
                                Exec "systemctl start dnsmasq"] in
        match os_open_w P h AP_RESTORED_FILE with
        | None =>
            provision P req w
            = (Ok (resp_provisioning_failed e),
               {| files := <[AP_RESTORED_FILE := ""]> (files w1);
                  history := h ++ [FileWrite AP_RESTORED_FILE ""] |})
        | Some msg =>
            provision P req w
            = (Ok (resp_invalid_request (Exn OSError msg)),
               {| files := files w1;
                  history := h ++ [FileWrite AP_RESTORED_FILE ""] |})
        end).
Proof.
  split; [apply provision_returns|]. split.
  - intros e w0 Hp. rewrite provision_eq, Hp. split; [reflexivity|].
    apply provision_prologue_cases in Hp.
    destruct Hp as [[-> _] | (conf & Hh & [[Hf _] | [_ [f H]]])];
      try discriminate.
    + left. reflexivity.
    + right. exists conf. split; [exact Hh | exact Hf].
  - intros f w0 e w1 Hp Hs. cbv zeta.
    rewrite provision_eq, Hp, provision_guarded_eq, Hs, restore_ap_mode_eq.
    cbv zeta. unfold rollback_events.
    destruct (os_open_w P _ AP_RESTORED_FILE) as [msg|];
      rewrite <- app_assoc; reflexivity.
Qed.

(** ** The join configuration *)

Lemma append_String (x : ascii) (a b : string) :
  (String x a ++ b)%string = String x (a ++ b)%string.
Proof. reflexivity. Qed.

Lemma append_empty (b : string) : (EmptyString ++ b)%string = b.
Proof. reflexivity. Qed.

Lemma string_app_assoc (a b c : string) :
  ((a ++ b) ++ c)%string = (a ++ (b ++ c))%string.
Proof.
  induction a as [|x a IH].
  - now rewrite !append_empty.
  - now rewrite !append_String, IH.
Qed.

Lemma no_line_feed_app (a b : string) :
  no_line_feed (a ++ b)%string = no_line_feed a && no_line_feed b.
Proof.
  induction a as [|x a IH].
  - now rewrite append_empty.
  - rewrite append_String. cbn [no_line_feed]. rewrite IH.
    now rewrite andb_assoc.
Qed.

Lemma text_lines_line (a rest : string) :
  no_line_feed a = true ->
  text_lines (a ++ nl ++ rest)%string = a :: text_lines rest.
Proof.
  induction a as [|x a IH]; intros Ha.
  - reflexivity.
  - cbn [no_line_feed] in Ha. apply andb_prop in Ha as [Hx Ha].
    rewrite append_String. cbn [text_lines].
    apply negb_true_iff in Hx. rewrite Hx.
    now rewrite (IH Ha).
Qed.

Lemma strip_prefix_app (p s : string) :
  strip_prefix p (p ++ s)%string = Some s.
Proof.
  induction p as [|x p IH].
  - reflexivity.
  - rewrite append_String. cbn [strip_prefix].
    now rewrite Ascii.eqb_refl.
Qed.

Lemma strip_closing_quote_app (s : string) :
  strip_closing_quote (s ++ dquote)%string = Some s.
Proof.
  induction s as [|x s IH]; [reflexivity|].
  rewrite append_String. cbn [strip_closing_quote]. rewrite IH.
  destruct s; reflexivity.
Qed.

Lemma quoted_value_line (key value : string) :
  quoted_value key (tab ++ key ++ "=" ++ dquote ++ value ++ dquote)%string
  = Some value.
Proof.
  unfold quoted_value.
  replace (tab ++ key ++ "=" ++ dquote ++ value ++ dquote)%string
    with ((tab ++ key ++ "=" ++ dquote) ++ (value ++ dquote))%string
    by (now rewrite !string_app_assoc).
  rewrite strip_prefix_app. apply strip_closing_quote_app.
Qed.

(** The generated file, line by line. *)
Lemma create_wpa_config_lines (ssid password : string) :
  no_line_feed ssid = true -> no_line_feed password = true ->
  text_lines (create_wpa_config ssid password)
  = [ "ctrl_interface=DIR=/var/run/wpa_supplicant GROUP=netdev";
      "update_config=1"; "country=PH"; ""; "network={";
      (tab ++ "ssid" ++ "=" ++ dquote ++ ssid ++ dquote)%string;
      (tab ++ "psk" ++ "=" ++ dquote ++ password ++ dquote)%string;
      (tab ++ "scan_ssid=1")%string; "}"; "" ].
Proof.
  intros Hs Hp. unfold create_wpa_config.
  rewrite !text_lines_line by reflexivity.
  change (nl ++ "network={" ++ nl ++ tab ++ "ssid=" ++ dquote ++ ssid ++ dquote
             ++ nl ++ tab ++ "psk=" ++ dquote ++ password ++ dquote ++ nl
             ++ tab ++ "scan_ssid=1" ++ nl ++ "}" ++ nl)%string
    with ("" ++ nl ++ "network={" ++ nl ++ tab ++ "ssid=" ++ dquote ++ ssid
             ++ dquote ++ nl ++ tab ++ "psk=" ++ dquote ++ password ++ dquote
             ++ nl ++ tab ++ "scan_ssid=1" ++ nl ++ "}" ++ nl)%string.
  rewrite !text_lines_line by reflexivity.
  replace (tab ++ "ssid=" ++ dquote ++ ssid ++ dquote ++ nl ++ tab ++ "psk="
             ++ dquote ++ password ++ dquote ++ nl ++ tab ++ "scan_ssid=1"
             ++ nl ++ "}" ++ nl)%string
    with ((tab ++ "ssid" ++ "=" ++ dquote ++ ssid ++ dquote) ++ nl
            ++ (tab ++ "psk" ++ "=" ++ dquote ++ password ++ dquote) ++ nl
            ++ (tab ++ "scan_ssid=1") ++ nl ++ "}" ++ nl)%string
    by (rewrite !string_app_assoc; reflexivity).
  rewrite text_lines_line
    by (rewrite !no_line_feed_app, Hs; reflexivity).
  rewrite text_lines_line
    by (rewrite !no_line_feed_app, Hp; reflexivity).
  rewrite text_lines_line by reflexivity.
  reflexivity.
Qed.

(** Both values appear in the file unchanged, between fixed texts. *)
Lemma create_wpa_config_verbatim :
  exists before between after : string,
    forall ssid password,
      create_wpa_config ssid password
      = (before ++ ssid ++ between ++ password ++ after)%string.
Proof.
  exists ("ctrl_interface=DIR=/var/run/wpa_supplicant GROUP=netdev" ++ nl
          ++ "update_config=1" ++ nl ++ "country=PH" ++ nl ++ nl
          ++ "network={" ++ nl ++ tab ++ "ssid=" ++ dquote)%string,
         (dquote ++ nl ++ tab ++ "psk=" ++ dquote)%string,
         (dquote ++ nl ++ tab ++ "scan_ssid=1" ++ nl ++ "}" ++ nl)%string.
  intros ssid password. unfold create_wpa_config.
  rewrite !string_app_assoc. reflexivity.
Qed.

(** C8, as the code has it.  [create_wpa_config] puts both values between
    the quotes unchanged; it escapes nothing.  For an ssid and a password
    without a line feed (embedded double quotes included) the values are
    still recoverable: reading, on the ssid line and on the psk line, the
    text between the opening quote and the quote that ends the line gives
    back exactly the two strings. *)
Theorem wpa_config_round_trip_single_line (ssid password : string) :
  no_line_feed ssid = true ->
  no_line_feed password = true ->
  read_wpa_config (create_wpa_config ssid password) = Some (ssid, password).
Proof.
  intros Hs Hp. unfold read_wpa_config.
  rewrite (create_wpa_config_lines _ _ Hs Hp).
  cbn [first_value].
  repeat match goal with
    | |- context [quoted_value ?k (tab ++ ?k ++ "=" ++ dquote ++ ?v ++ dquote)%string] =>
        rewrite (quoted_value_line k v)
    | |- context [quoted_value ?k ?l] =>
        replace (quoted_value k l) with (@None string) by reflexivity
    end.
  reflexivity.
Qed.

(** C8, as stated, fails: no reader of whatever format can give back every
    ssid and password that contain a double quote, because two different
    pairs of such values produce the very same configuration. *)
Lemma quoted_credentials_not_recoverable :
  ~ exists parse : string -> option (string * string),
      forall ssid password,
        str_in dquote ssid = true -> str_in dquote password = true ->
        parse (create_wpa_config ssid password) = Some (ssid, password).
Proof.
  intros [parse Hparse].
  pose proof (Hparse clash_ssid_1 clash_password_1 eq_refl eq_refl) as H1.
  pose proof (Hparse clash_ssid_2 clash_password_2 eq_refl eq_refl) as H2.
  assert (Hsame : create_wpa_config clash_ssid_1 clash_password_1
                  = create_wpa_config clash_ssid_2 clash_password_2)
    by (vm_compute; reflexivity).
  rewrite Hsame in H1. rewrite H1 in H2. discriminate H2.
Qed.

(** ** The scenarios of the specification, and where the code departs *)

Example scenario_success :
  fst (provision happy_rig sample_request boot) = Ok resp_success
  /\ files (snd (provision happy_rig sample_request boot)) !! PROVISIONED_FILE
     = Some "1"
  /\ probes_issued (history (snd (provision happy_rig sample_request boot)))
     = 3%nat.
Proof. repeat split; vm_compute; reflexivity. Qed.

Example scenario_no_wifi :
  fst (provision no_wifi_rig sample_request boot) = Ok resp_connect_failed
  /\ files (snd (provision no_wifi_rig sample_request boot)) !! AP_RESTORED_FILE
     = Some ""
  /\ files (snd (provision no_wifi_rig sample_request boot)) !! PROVISIONED_FILE
     = None
  /\ probes_issued (history (snd (provision no_wifi_rig sample_request boot)))
     = 20%nat.
Proof. repeat split; vm_compute; reflexivity. Qed.

Example scenario_edge_503 :
  fst (provision edge_503_rig sample_request boot)
  = Ok (resp_edge_failed "service unavailable")
  /\ files (snd (provision edge_503_rig sample_request boot)) !! AP_RESTORED_FILE
     = Some "".
Proof. repeat split; vm_compute; reflexivity. Qed.

(** A surrogate in the ssid stops the attempt at the progress line that
    prints it: nothing is written and nothing is issued. *)
Example scenario_surrogate_ssid :
  provision happy_rig surrogate_ssid_request boot
  = (Ok (resp_invalid_request
           (Exn UnicodeEncodeError
              "'utf-8' codec can't encode character '\udfff' in position 13: surrogates not allowed")),
     boot).
Proof. vm_compute; reflexivity. Qed.

(** A surrogate in the password passes the progress lines, which do not
    show the password, and stops the attempt at the write of step 1: the
    temporary file has been opened and is left empty. *)
Example scenario_surrogate_password :
  fst (provision happy_rig surrogate_password_request boot)
  = Ok (resp_invalid_request
          (Exn UnicodeEncodeError
             "'utf-8' codec can't encode character '\udfff' in position 122: surrogates not allowed"))
  /\ files (snd (provision happy_rig surrogate_password_request boot)) !! tmp_path
     = Some ""
  /\ history (snd (provision happy_rig surrogate_password_request boot))
     = [FileWrite tmp_path
          (create_wpa_config "HomeNet" ("secret" ++ lone_surrogate))].
Proof. repeat split; vm_compute; reflexivity. Qed.

(** C1, as stated, fails.  The request is accepted, the first probe shows
    an address and the registration call answers 200, so the attempt has
    joined the network, seen its address and registered; yet the provisioned
    marker cannot be opened for writing, the attempt is answered 500
    "Provisioning failed", no marker exists afterwards, and the status query
    answers [provisioned: false]. *)
Lemma full_success_without_flag :
  provision_prologue etc_denied_rig sample_request boot
    = (Ok (inr sample_fields), accepted etc_denied_rig)
  /\ address_seen etc_denied_rig (history (accepted etc_denied_rig) ++ join_events)
     = true
  /\ connect_phase etc_denied_rig (accepted etc_denied_rig)
     = (Ok true, polled etc_denied_rig)
  /\ edge_call etc_denied_rig (history (polled etc_denied_rig)) sample_fields
     = Responded 200 "ok"
  /\ fst (provision etc_denied_rig sample_request boot)
     = Ok (resp_provisioning_failed (Exn OSError (denied_msg PROVISIONED_FILE)))
  /\ status (resp_provisioning_failed (Exn OSError (denied_msg PROVISIONED_FILE)))
     = 500
  /\ files (snd (provision etc_denied_rig sample_request boot)) !! PROVISIONED_FILE
     = None
  /\ fst (provision_status (snd (provision etc_denied_rig sample_request boot)))
     = Ok (status_reply false).
Proof. repeat split; vm_compute; reflexivity. Qed.

(** C2, as stated, fails.  The poll runs out of attempts, the first write
    of the AP-restored marker raises, the inner handler rolls back once
    more and the reply is 500 "Provisioning failed", not the 400 connect
    failure.  When the marker can never be written, the reply is 400
    "Invalid request" and no AP-restored marker exists. *)
Lemma connect_failure_answered_500 :
  provision_prologue no_wifi_flaky_marker_rig sample_request boot
    = (Ok (inr sample_fields), accepted no_wifi_flaky_marker_rig)
  /\ connect_phase no_wifi_flaky_marker_rig (accepted no_wifi_flaky_marker_rig)
     = (Ok false, polled no_wifi_flaky_marker_rig)
  /\ fst (provision no_wifi_flaky_marker_rig sample_request boot)
     = Ok (resp_provisioning_failed (Exn OSError (denied_msg AP_RESTORED_FILE)))
  /\ status (resp_provisioning_failed (Exn OSError (denied_msg AP_RESTORED_FILE)))
     = 500
  /\ fst (provision no_wifi_no_marker_rig sample_request boot)
     = Ok (resp_invalid_request (Exn OSError (denied_msg AP_RESTORED_FILE)))
  /\ files (snd (provision no_wifi_no_marker_rig sample_request boot))
       !! AP_RESTORED_FILE = None.
Proof. repeat split; vm_compute; reflexivity. Qed.



(** C6, as stated, fails.  Writing the temporary configuration (step 1)
    raises; the outer handler answers 400 "Invalid request" and the only
    interaction of the whole attempt is that write: no start command is
    issued and no AP-restored marker is written, so no rollback was
    attempted. *)
Lemma step_1_failure_without_rollback :
  fst (provision_prologue tmp_denied_rig sample_request boot)
    = Raise (Exn OSError (denied_msg tmp_path))
  /\ fst (provision tmp_denied_rig sample_request boot)
     = Ok (resp_invalid_request (Exn OSError (denied_msg tmp_path)))
  /\ history (snd (provision tmp_denied_rig sample_request boot))
     = [FileWrite tmp_path (create_wpa_config "HomeNet" "secret1")]
  /\ files (snd (provision tmp_denied_rig sample_request boot)) !! AP_RESTORED_FILE
     = None.
Proof. repeat split; vm_compute; reflexivity. Qed.

(** C7, as stated, fails.  When the marker file cannot be opened,
    [restore_ap_mode] raises the [OSError] to its caller, and the failure
    shows in the HTTP reply: after a failed poll the handler answers 400
    "Invalid request" with the marker's error as detail. *)
Lemma restore_ap_mode_raises :
  restore_ap_mode marker_denied_rig boot
    = (Raise (Exn OSError (denied_msg AP_RESTORED_FILE)),
       {| files := ∅; history := rollback_events |})
  /\ fst (provision no_wifi_no_marker_rig sample_request boot)
     = Ok (resp_invalid_request (Exn OSError (denied_msg AP_RESTORED_FILE))).
Proof. repeat split; vm_compute; reflexivity. Qed.

(** ** The theorems at work on the sample runs *)

(** C5 on a request that carries no password. *)
Lemma missing_fields_rejected_witness :
  absent_or_empty request_without_password "password"
  /\ exists r,
       provision happy_rig request_without_password boot = (Ok r, boot)
       /\ status r = 400
       /\ dict_lookup "ok" (body r) = Some (JBool false)
       /\ (forall members,
             request_without_password = Decoded (JObj members) ->
             r = resp_missing_fields).
Proof.
  split; [reflexivity|].
  apply (missing_fields_rejected_without_effect happy_rig
           request_without_password boot).
  right. right. reflexivity.
Defined.

(** C10 on the successful run: address at the third probe, registration 200. *)
Lemma success_stops_provision_server_witness :
  provision happy_rig sample_request boot
    = (Ok resp_success, snd (provision happy_rig sample_request boot))
  /\ status resp_success = 200
  /\ (resp_success = resp_success
      /\ files (snd (provision happy_rig sample_request boot)) !! PROVISIONED_FILE
         = Some "1"
      /\ exists h,
           history (snd (provision happy_rig sample_request boot))
           = h ++ [FileWrite PROVISIONED_FILE "1";
                   Exec "systemctl stop hostapd";
                   Exec "systemctl stop dnsmasq";
                   Exec "systemctl stop provision-server"]).
Proof.
  split; [vm_compute; reflexivity|]. split; [reflexivity|].
  apply (success_stops_provision_server happy_rig sample_request boot
           resp_success (snd (provision happy_rig sample_request boot))).
  - vm_compute; reflexivity.
  - reflexivity.
Defined.

(** C2 on a device that never gets an address and can write its marker. *)
Lemma connect_failure_restores_ap_witness :
  provision_prologue no_wifi_rig sample_request boot
    = (Ok (inr sample_fields), accepted no_wifi_rig)
  /\ connect_phase no_wifi_rig (accepted no_wifi_rig)
     = (Ok false, polled no_wifi_rig)
  /\ exists w',
       provision no_wifi_rig sample_request boot = (Ok resp_connect_failed, w')
       /\ status resp_connect_failed = 400
       /\ history w' = history (polled no_wifi_rig)
                         ++ [Exec "systemctl start hostapd";
                             Exec "systemctl start dnsmasq";
                             FileWrite AP_RESTORED_FILE ""]
       /\ files w' !! AP_RESTORED_FILE = Some ""
       /\ files w' !! PROVISIONED_FILE = files boot !! PROVISIONED_FILE.
Proof.
  split; [vm_compute; reflexivity|]. split; [vm_compute; reflexivity|].
  apply (connect_failure_restores_ap no_wifi_rig sample_request boot
           sample_fields (accepted no_wifi_rig) (polled no_wifi_rig)).
  - vm_compute; reflexivity.
  - vm_compute; reflexivity.
  - reflexivity.
Defined.



(** C6 on a device whose provisioned marker cannot be written: step 7
    raises inside the inner [try], the rollback runs, the reply is 500. *)
Lemma exceptions_caught_witness :
  provision_prologue etc_denied_rig sample_request boot
    = (Ok (inr sample_fields), accepted etc_denied_rig)
  /\ fst (provision_steps etc_denied_rig sample_fields (accepted etc_denied_rig))
     = Raise (Exn OSError (denied_msg PROVISIONED_FILE))
  /\ fst (provision etc_denied_rig sample_request boot)
     = Ok (resp_provisioning_failed (Exn OSError (denied_msg PROVISIONED_FILE))).
Proof.
  split; [vm_compute; reflexivity|]. split; [vm_compute; reflexivity|].
  destruct (exceptions_caught_rollback_inside_inner_try etc_denied_rig
              sample_request boot) as (_ & _ & Hinner).
  specialize (Hinner sample_fields (accepted etc_denied_rig)
                (Exn OSError (denied_msg PROVISIONED_FILE))
                (snd (provision_steps etc_denied_rig sample_fields
                        (accepted etc_denied_rig)))).
  cbv zeta in Hinner.
  change (os_open_w etc_denied_rig) with (denies PROVISIONED_FILE) in Hinner.
  unfold denies in Hinner. cbn [String.eqb] in Hinner.
  replace (String.eqb AP_RESTORED_FILE PROVISIONED_FILE) with false in Hinner
    by reflexivity.
  rewrite Hinner; [reflexivity | vm_compute; reflexivity | vm_compute; reflexivity].
Defined.

(** C7 on a device whose marker file opens. *)
Lemma restore_ap_mode_witness :
  os_open_w happy_rig
    (history boot ++ [Exec "systemctl start hostapd";
                      Exec "systemctl start dnsmasq"]) AP_RESTORED_FILE = None
  /\ restore_ap_mode happy_rig boot
     = (Ok tt, {| files := <[AP_RESTORED_FILE := ""]> (files boot);
                  history := (history boot
                                ++ [Exec "systemctl start hostapd";
                                    Exec "systemctl start dnsmasq"])
                             ++ [FileWrite AP_RESTORED_FILE ""] |}).
Proof.
  split; [reflexivity|].
  destruct (restore_ap_mode_marker_decides happy_rig boot) as (_ & Hopens & _).
  apply Hopens. reflexivity.
Defined.

(** C8 on an ssid and a password that each hold a double quote. *)
Lemma wpa_config_round_trip_witness :
  no_line_feed ("Home" ++ dquote ++ "Net")%string = true
  /\ no_line_feed ("se" ++ dquote ++ "cret1")%string = true
  /\ read_wpa_config
       (create_wpa_config ("Home" ++ dquote ++ "Net") ("se" ++ dquote ++ "cret1"))
     = Some (("Home" ++ dquote ++ "Net")%string, ("se" ++ dquote ++ "cret1")%string).
Proof.
  split; [reflexivity|]. split; [reflexivity|].
  apply wpa_config_round_trip_single_line; reflexivity.
Defined.

(** ** Relations kept by every step of the handler *)

Ltac in_list := simpl; repeat (first [left; reflexivity | right]); fail.

Section Keeps.

Variable P : platform.
Variable I : world -> world -> Prop.
Hypothesis I_refl : forall w, I w w.
Hypothesis I_trans : forall a b c, I a b -> I b c -> I a c.

Lemma keeps_ret {A} (a : A) : keeps I (ret a).
Proof. intros w. apply I_refl. Qed.

Lemma keeps_raise {A} (e : exn) : keeps I (@raise A e).
Proof. intros w. apply I_refl. Qed.

Lemma keeps_bind {A B} (m : M A) (k : A -> M B) :
  keeps I m -> (forall a, keeps I (k a)) -> keeps I (bind m k).
Proof.
  intros Hm Hk w. unfold bind. specialize (Hm w).
  destruct (m w) as [[a|e] w1]; simpl in *.
  - eapply I_trans; [exact Hm | apply Hk].
  - exact Hm.
Qed.

Lemma keeps_try_except {A} (body : M A) (catch : exn -> option (M A)) :
  keeps I body ->
  (forall e h, catch e = Some h -> keeps I h) ->
  keeps I (try_except body catch).
Proof.
  intros Hb Hh w. unfold try_except. specialize (Hb w).
  destruct (body w) as [[a|e] w1]; simpl in *; [exact Hb|].
  destruct (catch e) as [h|] eqn:Hc; simpl; [|exact Hb].
  eapply I_trans; [exact Hb | apply (Hh e h Hc)].
Qed.

(** The interactions the relation allows. *)
Variable ok : event -> Prop.
Hypothesis I_record : forall e w, ok e -> I w (record e w).
Hypothesis I_store :
  forall path content stored w,
    ok (FileWrite path content) ->
    I w {| files := <[path := stored]> (files w);
           history := history w ++ [FileWrite path content] |}.

Lemma keeps_run cmd check timeout :
  ok (Exec cmd) -> keeps I (run P cmd check timeout).
Proof.
  intros Hok w. destruct (run_returns P cmd check timeout w) as [r ->].
  simpl. apply I_record, Hok.
Qed.

Lemma keeps_sleep s : ok (Sleep s) -> keeps I (sleep s).
Proof. intros Hok w. apply I_record, Hok. Qed.

Lemma keeps_write_file path content :
  ok (FileWrite path content) -> keeps I (write_file P path content).
Proof.
  intros Hok w. unfold write_file.
  destruct (os_open_w P (history w) path); [apply I_record, Hok|].
  destruct (encode_error content); apply I_store, Hok.
Qed.

Lemma keeps_print_value prefix v suffix : keeps I (print_value prefix v suffix).
Proof.
  intros w. rewrite print_value_eq.
  destruct (print_error prefix v suffix); apply I_refl.
Qed.

Lemma keeps_requests_post url payload headers timeout :
  ok (Post url payload headers timeout) ->
  keeps I (requests_post P url payload headers timeout).
Proof.
  intros Hok w. unfold requests_post.
  destruct (net_post P (history w) url payload headers timeout); simpl;
    apply I_record, Hok.
Qed.

Lemma keeps_is_connected_to_wifi n :
  ok (Exec probe_cmd) -> ok (Sleep 1) -> keeps I (is_connected_to_wifi P n).
Proof.
  intros Hprobe Hsleep. induction n as [|n IH]; simpl.
  - apply keeps_ret.
  - apply keeps_bind; [apply keeps_run, Hprobe|]. intros r.
    destruct (has_inet r); [apply keeps_ret|].
    apply keeps_bind; [apply keeps_sleep, Hsleep | intros _; exact IH].
Qed.

Lemma keeps_restore_ap_mode :
  ok (Exec "systemctl start hostapd") -> ok (Exec "systemctl start dnsmasq") ->
  ok (FileWrite AP_RESTORED_FILE "") ->
  keeps I (restore_ap_mode P).
Proof.
  intros H1 H2 H3. unfold restore_ap_mode.
  apply keeps_bind; [apply keeps_run, H1 | intros _].
  apply keeps_bind; [apply keeps_run, H2 | intros _].
  apply keeps_write_file, H3.
Qed.

Lemma keeps_provision_guarded f :
  (forall e, guarded_event P f e -> ok e) ->
  keeps I (provision_guarded P f).
Proof.
  intros Hok.
  assert (Hrestore : keeps I (restore_ap_mode P)).
  { apply keeps_restore_ap_mode; apply Hok; simpl; try in_list.
    left. split; reflexivity. }
  unfold provision_guarded. apply keeps_try_except.
  - unfold provision_steps.
    apply keeps_bind.
    + unfold connect_phase.
      repeat (apply keeps_bind;
              [ first [ apply keeps_run | apply keeps_sleep ];
                apply Hok; simpl; first [in_list | tauto]
              | intros _ ]).
      apply keeps_is_connected_to_wifi; apply Hok; simpl;
        first [in_list | tauto].
    + intros connected. destruct (negb connected).
      * apply keeps_bind; [exact Hrestore | intros _; apply keeps_ret].
      * apply keeps_bind.
        -- unfold register_phase. apply keeps_try_except.
           ++ apply keeps_bind.
              ** apply keeps_requests_post. apply Hok. simpl. auto.
              ** intros resp. destruct (negb (fst resp =? 200)).
                 --- apply keeps_bind; [exact Hrestore | intros _; apply keeps_ret].
                 --- apply keeps_ret.
           ++ intros e h. destruct (is_RequestException e); [|discriminate].
              intros [= <-].
              apply keeps_bind; [exact Hrestore | intros _; apply keeps_ret].
        -- intros [r|]; [apply keeps_ret|].
           unfold finish_phase.
           apply keeps_bind.
           ++ apply keeps_write_file. apply Hok. simpl. right. split; reflexivity.
           ++ intros _.
              repeat (apply keeps_bind;
                      [ apply keeps_run; apply Hok; simpl; in_list | intros _ ]).
              apply keeps_ret.
  - intros e h [= <-].
    apply keeps_bind; [exact Hrestore | intros _; apply keeps_ret].
Qed.

Lemma keeps_provision_prologue req :
  (forall conf, ok (FileWrite tmp_path conf)) ->
  keeps I (provision_prologue P req).
Proof.
  intros Hok. unfold provision_prologue.
  apply keeps_bind.
  { destruct req; [apply keeps_raise | apply keeps_ret]. }
  intros got.
  assert (Hget : forall key dflt,
             keeps I (data_get (py_or got (JObj [])) key dflt)).
  { intros key dflt. unfold data_get.
    destruct (py_or got (JObj [])); first [apply keeps_ret | apply keeps_raise]. }
  apply keeps_bind; [apply Hget | intros token].
  apply keeps_bind; [apply Hget | intros ssid].
  apply keeps_bind; [apply Hget | intros password].
  apply keeps_bind; [apply Hget | intros device_name].
  destruct (negb (truthy (py_and (py_and token ssid) password)));
    [apply keeps_ret|].
  apply keeps_bind; [apply keeps_print_value | intros _].
  apply keeps_bind; [apply keeps_print_value | intros _].
  apply keeps_bind.
  { unfold slice8. destruct token; first [apply keeps_ret | apply keeps_raise]. }
  intros _. apply keeps_bind; [apply keeps_print_value | intros _].
  apply keeps_bind; [apply keeps_write_file, Hok | intros _].
  apply keeps_ret.
Qed.

Lemma keeps_provision req :
  (forall f e, guarded_event P f e -> ok e) ->
  (forall conf, ok (FileWrite tmp_path conf)) ->
  keeps I (provision P req).
Proof.
  intros Hg Ht. unfold provision. apply keeps_try_except.
  - apply keeps_bind; [apply keeps_provision_prologue, Ht|].
    intros [r|f]; [apply keeps_ret | apply keeps_provision_guarded, Hg].
  - intros e h [= <-]. apply keeps_ret.
Qed.

End Keeps.

(** *** The relations at hand *)

Lemma extends_by_refl ok w : extends_by ok w w.
Proof. exists []. split; [now rewrite app_nil_r | constructor]. Qed.

Lemma extends_by_trans ok a b c :
  extends_by ok a b -> extends_by ok b c -> extends_by ok a c.
Proof.
  intros (e1 & H1 & F1) (e2 & H2 & F2). exists (e1 ++ e2). split.
  - rewrite H2, H1. now rewrite <- app_assoc.
  - apply Forall_app. split; assumption.
Qed.

Lemma extends_by_record (ok : event -> Prop) e w :
  ok e -> extends_by ok w (record e w).
Proof. intros H. exists [e]. split; [reflexivity | repeat constructor; exact H]. Qed.

Lemma extends_by_store (ok : event -> Prop) path content stored w :
  ok (FileWrite path content) ->
  extends_by ok w {| files := <[path := stored]> (files w);
                     history := history w ++ [FileWrite path content] |}.
Proof.
  intros H. exists [FileWrite path content].
  split; [reflexivity | repeat constructor; exact H].
Qed.

Lemma files_grow_refl w : files_grow w w.
Proof. split; auto. Qed.

Lemma files_grow_trans a b c : files_grow a b -> files_grow b c -> files_grow a c.
Proof.
  intros [F1 G1] [F2 G2]. split.
  - intros path H1 H2 H3. rewrite F2, F1; auto.
  - auto.
Qed.

Lemma files_grow_store path content stored w :
  path = tmp_path \/ path = AP_RESTORED_FILE \/ path = PROVISIONED_FILE ->
  files_grow w {| files := <[path := stored]> (files w);
                  history := history w ++ [FileWrite path content] |}.
Proof.
  intros Hpath. split; simpl.
  - intros p H1 H2 H3. apply lookup_insert_ne.
    destruct Hpath as [-> | [-> | ->]]; congruence.
  - intros p Hp. destruct (decide (path = p)) as [->|Hne].
    + rewrite lookup_insert_eq. eauto.
    + rewrite lookup_insert_ne by exact Hne. exact Hp.
Qed.

(** Every interaction of the inner [try] is one a whole call may issue. *)
Lemma guarded_event_attempt_event P f e :
  guarded_event P f e -> attempt_event P e.
Proof. destruct e; simpl; tauto. Qed.

(** X7. Whatever the request holds and however the platform answers, a
    call of the handler issues only interactions from a fixed repertoire:
    the eight constant command lines of the program, sleeps of one or two
    seconds, writes to the temporary configuration, to the AP-restored
    marker (empty) and to the provisioned marker ("1"), and POSTs to the
    configured URL with the fixed headers and a timeout of 15 seconds.  No
    text of the request ever becomes part of a command line. *)
Theorem provision_issues_only_known_interactions P req w :
  exists evs,
    history (snd (provision P req w)) = history w ++ evs
    /\ Forall (attempt_event P) evs
    /\ forall cmd, In (Exec cmd) evs -> In cmd known_commands.
Proof.
  assert (H : keeps (extends_by (attempt_event P)) (provision P req)).
  { apply (keeps_provision P _ (extends_by_refl _) (extends_by_trans _)
             (attempt_event P)).
    - intros e w0. apply extends_by_record.
    - intros path content stored w0. apply extends_by_store.
    - intros f e. apply guarded_event_attempt_event.
    - intros conf. simpl. left. reflexivity. }
  destruct (H w) as (evs & Hh & Hall). exists evs.
  split; [exact Hh|]. split; [exact Hall|].
  intros cmd Hin.
  exact (proj1 (List.Forall_forall (attempt_event P) evs) Hall _ Hin).
Qed.

Lemma provision_files_grow P req : keeps files_grow (provision P req).
Proof.
  apply (keeps_provision P _ files_grow_refl files_grow_trans (attempt_event P)).
  - intros e w0 _. split; simpl; auto.
  - intros path content stored w0 Hok. apply files_grow_store.
    simpl in Hok. tauto.
  - intros f e. apply guarded_event_attempt_event.
  - intros conf. simpl. left. reflexivity.
Qed.

(** X8. A call of the handler never removes one of the files the program
    opens itself: the temporary configuration and each of the two markers,
    when it existed before the call, exists after it, however the call
    ends.  (Files that only the commands write, such as the destination of
    the copy of line 126, are not files of the world.) *)
Theorem provision_never_removes_its_files P req w path :
  In path own_files ->
  is_Some (files w !! path) ->
  is_Some (files (snd (provision P req w)) !! path).
Proof.
  intros _. exact (proj2 (provision_files_grow P req w) path).
Qed.

(** ** Which requests are accepted *)

(** The progress lines pass exactly when both printed fields and the
    printed head of the token can be encoded and the token can be sliced. *)
Lemma progress_error_none f :
  progress_error f = None <->
  print_error "   SSID: " (f_ssid f) "" = None
  /\ print_error "   Device: " (f_device_name f) "" = None
  /\ sliceable (f_token f) = true
  /\ print_error "   Token: " (first8 (f_token f)) "..." = None.
Proof.
  unfold progress_error.
  destruct (print_error "   SSID: " (f_ssid f) "") as [e1|];
    [split; [discriminate | intros [H _]; discriminate H]|].
  destruct (print_error "   Device: " (f_device_name f) "") as [e2|];
    [split; [discriminate | intros (_ & H & _); discriminate H]|].
  destruct (f_token f) as [ |b|n|x|s|items|members];
    unfold slice_error, sliceable; cbv beta iota;
    try (split; [discriminate | intros (_ & _ & H & _); discriminate H]).
  - split; [intros H; repeat split; exact H | intros (_ & _ & _ & H); exact H].
  - split; [intros H; repeat split; exact H | intros (_ & _ & _ & H); exact H].
Qed.

(** X3. A request is accepted, i.e. passes decoding, validation and the
    progress lines and has its join configuration written, exactly when its
    body is a JSON object whose token, ssid and password are truthy, whose
    token can be sliced (a string or a list), whose ssid, device name and
    first eight characters of the token can be printed (a string holds no
    surrogate), the temporary file opens and the configuration text can be
    encoded.  The fields used afterwards are the members as sent, of
    whatever JSON type, with "EVVOS_0001" standing in for a device_name
    member that is absent; the world then differs by the written
    configuration only. *)
Theorem request_accepted_iff P req w f w0 :
  provision_prologue P req w = (Ok (inr f), w0) <->
  exists members,
    req = Decoded (JObj members)
    /\ f = Fields (field_of req "token") (field_of req "ssid")
                  (field_of req "password")
                  (default (JStr "EVVOS_0001")
                           (dict_lookup "device_name" members))
    /\ truthy (f_token f) = true
    /\ truthy (f_ssid f) = true
    /\ truthy (f_password f) = true
    /\ sliceable (f_token f) = true
    /\ print_error "   SSID: " (f_ssid f) "" = None
    /\ print_error "   Device: " (f_device_name f) "" = None
    /\ print_error "   Token: " (first8 (f_token f)) "..." = None
    /\ os_open_w P (history w) tmp_path = None
    /\ encode_error (create_wpa_config (fstr P (f_ssid f))
                                       (fstr P (f_password f))) = None
    /\ w0 = {| files :=
                 <[tmp_path := create_wpa_config (fstr P (f_ssid f))
                                                 (fstr P (f_password f))]>
                   (files w);
               history :=
                 history w ++ [FileWrite tmp_path
                                 (create_wpa_config (fstr P (f_ssid f))
                                                    (fstr P (f_password f)))] |}.
Proof.
  rewrite provision_prologue_accepted. split.
  - intros (members & -> & -> & Ht & Hs & Hp & Hprog & Ho & He & ->).
    apply progress_error_none in Hprog.
    destruct Hprog as (H1 & H2 & H3 & H4).
    exists members. repeat split; assumption.
  - intros (members & -> & -> & Ht & Hs & Hp & Hsl & H1 & H2 & H3 & Ho & He & ->).
    exists members. split; [reflexivity|]. split; [reflexivity|].
    split; [exact Ht|]. split; [exact Hs|]. split; [exact Hp|].
    split; [apply progress_error_none; repeat split; assumption|].
    split; [exact Ho|]. split; [exact He|]. reflexivity.
Qed.

(** X4. A request whose token, ssid and password are all truthy, whose
    ssid and device name can be printed, but whose token is a JSON number
    (an integer or a float) or [true], passes the missing-fields test and
    fails at [token[:8]]: the prologue raises the [TypeError] that names the
    token's type, and the reply is 400 "Invalid request" with that text as
    detail; nothing is written and no command is issued. *)
Theorem unsliceable_token_is_invalid_request P members w :
  let f := request_fields members in
  In (type_name (f_token f)) ["int"; "float"; "bool"] ->
  truthy (f_token f) = true ->
  truthy (f_ssid f) = true ->
  truthy (f_password f) = true ->
  print_error "   SSID: " (f_ssid f) "" = None ->
  print_error "   Device: " (f_device_name f) "" = None ->
  provision_prologue P (Decoded (JObj members)) w
  = (Raise (Exn TypeError ("'" ++ type_name (f_token f)
                               ++ "' object is not subscriptable")), w)
  /\ provision P (Decoded (JObj members)) w
     = (Ok (Response [("ok", JBool false);
                      ("error", JStr "Invalid request");
                      ("detail", JStr ("'" ++ type_name (f_token f)
                                           ++ "' object is not subscriptable"))]
                     400), w).
Proof.
  intros f Hty Ht Hs Hp Hs1 Hd1.
  assert (Hprog : progress_error f
                  = Some (Exn TypeError ("'" ++ type_name (f_token f)
                                             ++ "' object is not subscriptable"))).
  { unfold progress_error. rewrite Hs1, Hd1.
    destruct (f_token f); cbn [type_name In] in Hty;
      try (destruct Hty as [H|[H|[H|[]]]]; discriminate H);
      reflexivity. }
  rewrite provision_eq, provision_prologue_eq, py_or_object. cbv zeta.
  fold f. rewrite Ht, Hs, Hp, Hprog. split; reflexivity.
Qed.

(** X5. A body that does not decode, or decodes to something other than a
    JSON object, never starts an attempt and leaves the world as it was.  A
    falsy value (null, false, 0, the empty string, the empty list) is
    treated like an empty object and gets the 400 "Missing fields" reply; a
    truthy one (a non-empty string or list, a non-zero number, true) gets
    400 "Invalid request" whose detail is the [AttributeError] naming its
    type; an undecodable body gets 400 "Invalid request" with the decoder's
    message. *)
Theorem non_object_body_replies P w :
  (forall msg,
      provision P (Undecodable msg) w
      = (Ok (resp_invalid_request (Exn BadRequest msg)), w))
  /\ (forall data,
        (forall members, data <> JObj members) ->
        provision P (Decoded data) w
        = (Ok (if truthy data
               then resp_invalid_request
                      (Exn AttributeError
                         ("'" ++ type_name data
                              ++ "' object has no attribute 'get'")%string)
               else resp_missing_fields), w)).
Proof.
  split.
  - intros msg. reflexivity.
  - intros data Hnot.
    rewrite provision_eq, provision_prologue_eq.
    destruct data as [ |b|n|x|s|items|members];
      try (unfold py_or; destruct (truthy _); reflexivity).
    exfalso. exact (Hnot _ eq_refl).
Qed.

(** ** The temporary join configuration *)

Lemma prologue_accepted_world P req w f w0 :
  provision_prologue P req w = (Ok (inr f), w0) ->
  files w0 !! tmp_path
  = Some (create_wpa_config (fstr P (f_ssid f)) (fstr P (f_password f))).
Proof.
  intros H. apply provision_prologue_accepted in H.
  destruct H as (members & _ & _ & _ & _ & _ & _ & _ & _ & ->).
  apply lookup_insert_eq.
Qed.

Lemma provision_guarded_keeps_tmp P f :
  keeps (fun w w' => files w' !! tmp_path = files w !! tmp_path)
        (provision_guarded P f).
Proof.
  apply (keeps_provision_guarded P _) with (ok := guarded_event P f).
  - reflexivity.
  - intros a b c Hab Hbc. congruence.
  - intros e w _. reflexivity.
  - intros path content stored w Hok. simpl.
    apply lookup_insert_ne. simpl in Hok.
    destruct Hok as [[-> _] | [-> _]]; discriminate.
  - auto.
Qed.

(** X9. Once a request has been accepted, the temporary join
    configuration, which holds the ssid and the password in clear, is still
    on disk with that very content when the handler has answered, whatever
    the outcome of the attempt: no path of the handler removes or rewrites
    it. *)
Theorem join_configuration_stays_on_disk P req w f w0 :
  provision_prologue P req w = (Ok (inr f), w0) ->
  files (snd (provision P req w)) !! tmp_path
  = Some (create_wpa_config (fstr P (f_ssid f)) (fstr P (f_password f))).
Proof.
  intros Hp.
  pose proof (provision_guarded_keeps_tmp P f w0) as Hkeep. simpl in Hkeep.
  rewrite provision_eq, Hp.
  destruct (provision_guarded P f w0) as [[r|e] w1]; simpl in *;
    rewrite Hkeep; exact (prologue_accepted_world P _ _ _ _ Hp).
Qed.

(** ** run *)

(** X1. [run] never raises and its only effect is the command itself.  It
    hands back the completed process exactly when the command ran to its
    end and either [check] is off or the exit status is 0; a non-zero
    status under [check], a timeout and any other exception all give
    [None]. *)
Theorem run_returns_result_or_none P cmd check timeout w :
  exists r,
    run P cmd check timeout w = (Ok r, record (Exec cmd) w)
    /\ forall c,
         r = Some c
         <-> os_exec P (history w) cmd = Exited c
             /\ (check = false \/ returncode c = 0).
Proof.
  unfold run, try_except, bind, subprocess_run, ret.
  destruct (os_exec P (history w) cmd) as [c0|e].
  - destruct check; simpl.
    + destruct (returncode c0 =? 0) eqn:Hrc; simpl.
      * apply Z.eqb_eq in Hrc. eexists. split; [reflexivity|].
        intros c. split.
        -- intros [= <-]. auto.
        -- intros [[= <-] _]. reflexivity.
      * apply Z.eqb_neq in Hrc. eexists. split; [reflexivity|].
        intros c. split; [discriminate|].
        intros [[= <-] [H|H]]; [discriminate | contradiction].
    + eexists. split; [reflexivity|]. intros c. split.
      * intros [= <-]. auto.
      * intros [[= <-] _]. reflexivity.
  - destruct (is_TimeoutExpired e); eexists; (split; [reflexivity|]);
      intros c; (split; [discriminate | intros [H _]; discriminate]).
Qed.

(** ** What the reply depends on *)

Section Agreement.

Variables P P' : platform.
Hypothesis same_probe : forall h, address_seen P h = address_seen P' h.
Hypothesis same_open : os_open_w P = os_open_w P'.
Hypothesis same_post : net_post P = net_post P'.
Hypothesis same_environ : environ P = environ P'.
Hypothesis same_format : py_format P = py_format P'.

Lemma agree_is_connected_to_wifi n :
  forall w, is_connected_to_wifi P n w = is_connected_to_wifi P' n w.
Proof.
  induction n as [|n IH]; intros w; [reflexivity|].
  simpl. unfold bind at 1 3.
  destruct (run_probe P w) as (r & -> & Hr).
  destruct (run_probe P' w) as (r' & -> & Hr').
  rewrite Hr, Hr', same_probe.
  destruct (address_seen P' (history w)); [reflexivity|].
  rewrite !seq_sleep. apply IH.
Qed.

Lemma agree_connect_phase w : connect_phase P w = connect_phase P' w.
Proof. rewrite !connect_phase_eq. apply agree_is_connected_to_wifi. Qed.

Lemma agree_restore_ap_mode w : restore_ap_mode P w = restore_ap_mode P' w.
Proof. rewrite !restore_ap_mode_eq. cbv zeta. now rewrite same_open. Qed.

Lemma agree_finish_phase w : finish_phase P w = finish_phase P' w.
Proof. rewrite !finish_phase_eq. now rewrite same_open. Qed.

Lemma agree_edge f :
  edge_post P f = edge_post P' f
  /\ forall h, edge_call P h f = edge_call P' h f.
Proof.
  unfold edge_post, edge_call, EDGE_FINISH_URL, edge_headers, SERVICE_ROLE_KEY.
  rewrite same_environ, same_post. split; reflexivity.
Qed.

Lemma agree_provision_steps f w :
  provision_steps P f w = provision_steps P' f w.
Proof.
  rewrite !provision_steps_eq, agree_connect_phase.
  destruct (agree_edge f) as [Hpost Hcall].
  destruct (connect_phase P' w) as [[[|]|e] w1]; try reflexivity.
  - cbv zeta. rewrite Hpost, Hcall, agree_finish_phase.
    destruct (edge_call P' (history w1) f) as [code text|e];
      rewrite ?agree_restore_ap_mode; reflexivity.
  - now rewrite agree_restore_ap_mode.
Qed.

Lemma agree_provision_prologue req w :
  provision_prologue P req w = provision_prologue P' req w.
Proof.
  unfold provision_prologue, write_file, fstr.
  rewrite same_open, same_format. reflexivity.
Qed.

Lemma agree_provision req w : provision P req w = provision P' req w.
Proof.
  rewrite !provision_eq, agree_provision_prologue.
  destruct (provision_prologue P' req w) as [[[r|f]|e] w0]; try reflexivity.
  rewrite !provision_guarded_eq, agree_provision_steps.
  destruct (provision_steps P' f w0) as [[r|e] w1]; [reflexivity|].
  now rewrite agree_restore_ap_mode.
Qed.

End Agreement.

(** X2. The reply and the final state of a call depend on the platform
    only through the probe's verdict, the opening of files, the
    registration answer, the environment and the rendering of values.  How
    the systemctl, cp and wpa_cli commands end (exit status, output,
    exception) never matters; in particular a failed copy of the join
    configuration, although run with check=True, does not stop the
    attempt. *)
Theorem command_outcomes_do_not_matter P P' req w :
  (forall h, address_seen P h = address_seen P' h) ->
  os_open_w P = os_open_w P' ->
  net_post P = net_post P' ->
  environ P = environ P' ->
  py_format P = py_format P' ->
  provision P req w = provision P' req w.
Proof. intros. now apply agree_provision. Qed.

(** ** The handler never reads the files *)

Lemma oblivious_ret {A} (a : A) : oblivious (ret a).
Proof. intros w1 w2 H. split; [reflexivity | exact H]. Qed.

Lemma oblivious_raise {A} (e : exn) : oblivious (@raise A e).
Proof. intros w1 w2 H. split; [reflexivity | exact H]. Qed.

Lemma oblivious_bind {A B} (m : M A) (k : A -> M B) :
  oblivious m -> (forall a, oblivious (k a)) -> oblivious (bind m k).
Proof.
  intros Hm Hk w1 w2 H. unfold bind.
  destruct (Hm w1 w2 H) as [Hr Hh].
  destruct (m w1) as [[a1|e1] v1], (m w2) as [[a2|e2] v2]; simpl in *;
    try discriminate.
  - injection Hr as <-. apply Hk, Hh.
  - injection Hr as <-. split; [reflexivity | exact Hh].
Qed.

Lemma oblivious_try_except {A} (body : M A) (catch : exn -> option (M A)) :
  oblivious body ->
  (forall e h, catch e = Some h -> oblivious h) ->
  oblivious (try_except body catch).
Proof.
  intros Hb Hh w1 w2 H. unfold try_except.
  destruct (Hb w1 w2 H) as [Hr Hhist].
  destruct (body w1) as [[a1|e1] v1], (body w2) as [[a2|e2] v2]; simpl in *;
    try discriminate.
  - split; [exact Hr | exact Hhist].
  - injection Hr as <-.
    destruct (catch e1) as [h|] eqn:Hc.
    + apply (Hh e1 h Hc), Hhist.
    + split; [reflexivity | exact Hhist].
Qed.

Section Oblivious.

Variable P : platform.

Lemma oblivious_run cmd check timeout : oblivious (run P cmd check timeout).
Proof.
  intros w1 w2 H.
  unfold run, try_except, bind, subprocess_run, ret. rewrite H.
  destruct (os_exec P (history w2) cmd) as [r|e].
  - destruct (check && negb (returncode r =? 0)); split; simpl;
      try reflexivity; now rewrite H.
  - destruct (is_TimeoutExpired e); split; simpl; try reflexivity;
      now rewrite H.
Qed.

Lemma oblivious_sleep s : oblivious (sleep s).
Proof. intros w1 w2 H. split; simpl; [reflexivity | now rewrite H]. Qed.

Lemma oblivious_write_file path content :
  oblivious (write_file P path content).
Proof.
  intros w1 w2 H. unfold write_file. rewrite H.
  destruct (os_open_w P (history w2) path);
    [|destruct (encode_error content)];
    split; cbn [fst snd history record]; try reflexivity; now rewrite H.
Qed.

Lemma oblivious_print_value prefix v suffix :
  oblivious (print_value prefix v suffix).
Proof.
  intros w1 w2 H. rewrite !print_value_eq.
  destruct (print_error prefix v suffix); split; try reflexivity; exact H.
Qed.

Lemma oblivious_requests_post url payload headers timeout :
  oblivious (requests_post P url payload headers timeout).
Proof.
  intros w1 w2 H. unfold requests_post. rewrite H.
  destruct (net_post P (history w2) url payload headers timeout); split; simpl;
    try reflexivity; now rewrite H.
Qed.

Lemma oblivious_is_connected_to_wifi n : oblivious (is_connected_to_wifi P n).
Proof.
  induction n as [|n IH]; simpl; [apply oblivious_ret|].
  apply oblivious_bind; [apply oblivious_run | intros r].
  destruct (has_inet r); [apply oblivious_ret|].
  apply oblivious_bind; [apply oblivious_sleep | intros _; exact IH].
Qed.

Ltac oblivious_step :=
  first
    [ apply oblivious_ret | apply oblivious_raise | apply oblivious_run
    | apply oblivious_sleep | apply oblivious_write_file
    | apply oblivious_print_value
    | apply oblivious_requests_post | apply oblivious_is_connected_to_wifi
    | apply oblivious_bind; [|intros ?]
    | match goal with
      | |- oblivious (if ?b then _ else _) => destruct b
      | |- oblivious (match ?x with _ => _ end) => destruct x
      end ].

Lemma oblivious_restore_ap_mode : oblivious (restore_ap_mode P).
Proof. unfold restore_ap_mode. repeat oblivious_step. Qed.

Lemma oblivious_provision_guarded f : oblivious (provision_guarded P f).
Proof.
  unfold provision_guarded. apply oblivious_try_except.
  - unfold provision_steps, connect_phase, finish_phase.
    apply oblivious_bind; [repeat oblivious_step | intros connected].
    destruct (negb connected).
    + apply oblivious_bind; [apply oblivious_restore_ap_mode | intros _].
      apply oblivious_ret.
    + apply oblivious_bind.
      * unfold register_phase. apply oblivious_try_except.
        -- apply oblivious_bind; [apply oblivious_requests_post | intros resp].
           destruct (negb (fst resp =? 200)); [|apply oblivious_ret].
           apply oblivious_bind; [apply oblivious_restore_ap_mode | intros _].
           apply oblivious_ret.
        -- intros e h. destruct (is_RequestException e); [|discriminate].
           intros [= <-].
           apply oblivious_bind; [apply oblivious_restore_ap_mode | intros _].
           apply oblivious_ret.
      * intros [r|]; repeat oblivious_step.
  - intros e h [= <-].
    apply oblivious_bind; [apply oblivious_restore_ap_mode | intros _].
    apply oblivious_ret.
Qed.

Lemma oblivious_provision req : oblivious (provision P req).
Proof.
  unfold provision. apply oblivious_try_except.
  - apply oblivious_bind.
    + unfold provision_prologue, get_json, data_get, slice8.
      repeat oblivious_step.
    + intros [r|f]; [apply oblivious_ret | apply oblivious_provision_guarded].
  - intros e h [= <-]. apply oblivious_ret.
Qed.

End Oblivious.

(** X13. The provisioning handler never reads the markers nor any other
    file: started after the same history, it gives the same reply and
    issues the same interactions whatever the files are.  A device that is
    already provisioned therefore runs a new attempt in full, AP services
    stopped and all, exactly as an unprovisioned one. *)
Theorem provision_ignores_markers P req files1 files2 h :
  fst (provision P req (World files1 h)) = fst (provision P req (World files2 h))
  /\ history (snd (provision P req (World files1 h)))
     = history (snd (provision P req (World files2 h))).
Proof. apply (oblivious_provision P req). reflexivity. Qed.

(** ** The replies of the handler *)

Lemma provision_steps_replies P f w0 r w' :
  provision_steps P f w0 = (Ok r, w') ->
  r = resp_connect_failed \/ (exists t, r = resp_edge_failed t)
  \/ (exists e, r = resp_edge_unreachable e) \/ r = resp_success.
Proof.
  rewrite provision_steps_eq.
  destruct (connect_phase P w0) as [[[|]|e] w1]; [| |discriminate].
  - cbv zeta.
    destruct (edge_call P (history w1) f) as [code text|e].
    + destruct (code =? 200).
      * rewrite finish_phase_eq.
        destruct (os_open_w P _ PROVISIONED_FILE); [discriminate|].
        intros [= <- _]. auto.
      * destruct (restore_ap_mode P _) as [[[]|e] w3]; [|discriminate].
        intros [= <- _]. right. left. eauto.
    + destruct (is_RequestException e); [|discriminate].
      destruct (restore_ap_mode P _) as [[[]|e'] w3]; [|discriminate].
      intros [= <- _]. right. right. left. eauto.
  - destruct (restore_ap_mode P w1) as [[[]|e] w2]; [|discriminate].
    intros [= <- _]. auto.
Qed.

Lemma provision_reply_known P req w r w' :
  provision P req w = (Ok r, w') ->
  r = resp_missing_fields \/ r = resp_connect_failed
  \/ (exists t, r = resp_edge_failed t)
  \/ (exists e, r = resp_edge_unreachable e)
  \/ r = resp_success
  \/ (exists e, r = resp_provisioning_failed e)
  \/ (exists e, r = resp_invalid_request e).
Proof.
  rewrite provision_eq.
  destruct (provision_prologue P req w) as [[[r0|f]|e] w0] eqn:Hp.
  - intros [= <- _]. left.
    apply provision_prologue_cases in Hp.
    destruct Hp as [[_ [[= ->]|[e H]]] | (conf & _ & [[_ [e H]] | [_ [f H]]])];
      try discriminate. reflexivity.
  - rewrite provision_guarded_eq.
    destruct (provision_steps P f w0) as [[r0|e] w1] eqn:Hs.
    + intros [= <- _].
      destruct (provision_steps_replies P _ _ _ _ Hs) as [H|[H|[H|H]]]; tauto.
    + destruct (restore_ap_mode P w1) as [[[]|e'] w2]; intros [= <- _].
      * do 5 right. left. eauto.
      * do 6 right. eauto.
  - intros [= <- _]. do 6 right. eauto.
Qed.

(** X6. Every reply of POST /provision has status 200, 400 or 500; its
    [ok] member is true exactly when the status is 200; every reply other
    than the 200 one carries an [error] text, every 500 reply also carries
    a [detail] text, and the 200 reply carries the success message. *)
Theorem provision_reply_contract P req w :
  exists r w',
    provision P req w = (Ok r, w')
    /\ (status r = 200 \/ status r = 400 \/ status r = 500)
    /\ dict_lookup "ok" (body r) = Some (JBool (status r =? 200))
    /\ (status r <> 200 ->
        exists msg, dict_lookup "error" (body r) = Some (JStr msg))
    /\ (status r = 500 ->
        exists d, dict_lookup "detail" (body r) = Some (JStr d))
    /\ (status r = 200 ->
        dict_lookup "message" (body r)
        = Some (JStr "Device provisioned successfully")).
Proof.
  destruct (provision_returns P req w) as (r & w' & Hrun).
  exists r, w'. split; [exact Hrun|].
  destruct (provision_reply_known P _ _ _ _ Hrun)
    as [->|[->|[[t ->]|[[e ->]|[->|[[e ->]|[e ->]]]]]]];
    simpl; repeat split; auto; try (intros; eauto; fail);
    try (intros H; first [discriminate H | contradiction H; reflexivity]).
Qed.

(** ** Sequences of calls *)

Lemma dispatch_returns P c w : exists r w', dispatch P c w = (Ok r, w').
Proof.
  destruct c as [req| |]; simpl.
  - apply provision_returns.
  - unfold provision_status. destruct (path_exists PROVISIONED_FILE w); eauto.
  - unfold health, ret. eauto.
Qed.

Lemma dispatch_get_pure P c w :
  is_post_provision c = false -> snd (dispatch P c w) = w.
Proof.
  destruct c as [req| |]; [discriminate| |]; intros _; simpl.
  - unfold provision_status. destruct (path_exists PROVISIONED_FILE w); reflexivity.
  - reflexivity.
Qed.

Lemma dispatch_keeps_marker P c w :
  path_exists PROVISIONED_FILE w = true ->
  path_exists PROVISIONED_FILE (snd (dispatch P c w)) = true.
Proof.
  intros H. destruct (is_post_provision c) eqn:Hc.
  - destruct c as [req| |]; try discriminate. simpl.
    unfold path_exists in *. apply bool_decide_eq_true in H.
    apply bool_decide_eq_true.
    exact (proj2 (provision_files_grow P req w) _ H).
  - now rewrite dispatch_get_pure.
Qed.

Lemma serve_cons P c calls w :
  serve P (c :: calls) w =
    match dispatch P c w with
    | (Ok r, w1) =>
        match serve P calls w1 with
        | (Ok rs, w2) => (Ok (r :: rs), w2)
        | (Raise e, w2) => (Raise e, w2)
        end
    | (Raise e, w1) => (Raise e, w1)
    end.
Proof.
  simpl. unfold bind. destruct (dispatch P c w) as [[r|e] w1]; [|reflexivity].
  destruct (serve P calls w1) as [[rs|e] w2]; reflexivity.
Qed.

(** X11. Once the provisioned marker exists, it survives every sequence
    of calls to the three endpoints, whatever the requests are and however
    the attempts among them end: every call is answered, each GET
    /provision-status in the sequence answers [provisioned: true], and the
    marker still exists at the end. *)
Theorem provisioned_once_provisioned_forever P calls :
  forall w,
    path_exists PROVISIONED_FILE w = true ->
    exists rs w',
      serve P calls w = (Ok rs, w')
      /\ length rs = length calls
      /\ path_exists PROVISIONED_FILE w' = true
      /\ forall i, calls !! i = Some GetProvisionStatus ->
                   rs !! i = Some (status_reply true).
Proof.
  induction calls as [|c calls IH]; intros w Hw.
  - exists [], w. repeat split; auto. intros i Hi. discriminate.
  - rewrite serve_cons.
    destruct (dispatch_returns P c w) as (r & w1 & Hd).
    pose proof (dispatch_keeps_marker P c w Hw) as Hw1. rewrite Hd in *.
    simpl in Hw1.
    destruct (IH w1 Hw1) as (rs & w2 & Hs & Hlen & Hw2 & Hstat).
    rewrite Hs. exists (r :: rs), w2.
    split; [reflexivity|]. split; [simpl; now rewrite Hlen|].
    split; [exact Hw2|].
    intros [|i] Hi; simpl in *.
    + injection Hi as ->. simpl in Hd. unfold provision_status in Hd.
      rewrite Hw in Hd. injection Hd as <- _. reflexivity.
    + apply Hstat, Hi.
Qed.

(** X12. The two GET endpoints are read-only: dropping every GET call
    from a sequence of calls changes neither the final world nor the
    replies given to the POST /provision calls. *)
Theorem get_calls_change_nothing P calls :
  forall w,
    exists rs rs' w',
      serve P calls w = (Ok rs, w')
      /\ serve P (List.filter is_post_provision calls) w = (Ok rs', w')
      /\ post_replies calls rs = rs'.
Proof.
  induction calls as [|c calls IH]; intros w.
  - exists [], [], w. repeat split.
  - rewrite serve_cons.
    destruct (dispatch_returns P c w) as (r & w1 & Hd).
    destruct (is_post_provision c) eqn:Hc.
    + destruct (IH w1) as (rs & rs' & w' & Hs & Hs' & Hp).
      simpl List.filter. rewrite Hc, serve_cons, Hd, Hs, Hs'.
      exists (r :: rs), (r :: rs'), w'.
      split; [reflexivity|]. split; [reflexivity|].
      simpl. rewrite Hc, Hp. reflexivity.
    + pose proof (dispatch_get_pure P c w Hc) as Hpure.
      rewrite Hd in *. simpl in Hpure. subst w1.
      destruct (IH w) as (rs & rs' & w' & Hs & Hs' & Hp).
      simpl List.filter. rewrite Hc, Hs.
      exists (r :: rs), rs', w'.
      split; [reflexivity|]. split; [exact Hs'|].
      simpl. rewrite Hc. exact Hp.
Qed.

(** ** How much an attempt issues *)

Lemma weight_app mu a b : weight mu (a ++ b) = weight mu a + weight mu b.
Proof. induction a as [|e a IH]; simpl; [reflexivity | rewrite IH; lia]. Qed.

Lemma weight_seconds_slept evs : weight sleep_seconds evs = seconds_slept evs.
Proof.
  induction evs as [|e evs IH]; simpl; [reflexivity|].
  destruct e; simpl; rewrite IH; reflexivity.
Qed.

Lemma weight_probes_issued evs :
  weight probe_count evs = Z.of_nat (probes_issued evs).
Proof.
  unfold probes_issued.
  induction evs as [|e evs IH]; simpl; [reflexivity|].
  unfold probe_count at 1. destruct (is_probe e); simpl; rewrite IH; lia.
Qed.

Section Cost.

Variable P : platform.
Variable mu : event -> Z.

Lemma spends_ret {A} (a : A) : spends mu 0 (ret a).
Proof. intros w. exists []. split; [now rewrite app_nil_r | simpl; lia]. Qed.

Lemma spends_raise {A} (e : exn) : spends mu 0 (@raise A e).
Proof. intros w. exists []. split; [now rewrite app_nil_r | simpl; lia]. Qed.

Lemma spends_le {A} (m : M A) c c' : spends mu c m -> c <= c' -> spends mu c' m.
Proof.
  intros H Hle w. destruct (H w) as (evs & Hh & Hw).
  exists evs. split; [exact Hh | lia].
Qed.

Lemma spends_bind {A B} (m : M A) (k : A -> M B) c1 c2 :
  spends mu c1 m -> (forall a, spends mu c2 (k a)) -> 0 <= c2 ->
  spends mu (c1 + c2) (bind m k).
Proof.
  intros Hm Hk Hc w. unfold bind.
  destruct (Hm w) as (e1 & H1 & W1).
  destruct (m w) as [[a|e] w1]; simpl in *.
  - destruct (Hk a w1) as (e2 & H2 & W2).
    exists (e1 ++ e2). split.
    + rewrite H2, H1. now rewrite <- app_assoc.
    + rewrite weight_app. lia.
  - exists e1. split; [exact H1 | lia].
Qed.

Lemma spends_try_except {A} (body : M A) (catch : exn -> option (M A)) c1 c2 :
  spends mu c1 body ->
  (forall e h, catch e = Some h -> spends mu c2 h) -> 0 <= c2 ->
  spends mu (c1 + c2) (try_except body catch).
Proof.
  intros Hb Hh Hc w. unfold try_except.
  destruct (Hb w) as (e1 & H1 & W1).
  destruct (body w) as [[a|e] w1]; simpl in *.
  - exists e1. split; [exact H1 | lia].
  - destruct (catch e) as [h|] eqn:Hcatch; simpl.
    + destruct (Hh e h Hcatch w1) as (e2 & H2 & W2).
      exists (e1 ++ e2). split.
      * rewrite H2, H1. now rewrite <- app_assoc.
      * rewrite weight_app. lia.
    + exists e1. split; [exact H1 | lia].
Qed.

Lemma spends_run cmd check timeout :
  spends mu (mu (Exec cmd)) (run P cmd check timeout).
Proof.
  intros w. destruct (run_returns P cmd check timeout w) as [r ->].
  exists [Exec cmd]. split; [reflexivity | simpl; lia].
Qed.

Lemma spends_sleep s : spends mu (mu (Sleep s)) (sleep s).
Proof. intros w. exists [Sleep s]. split; [reflexivity | simpl; lia]. Qed.

Lemma spends_write_file path content :
  spends mu (mu (FileWrite path content)) (write_file P path content).
Proof.
  intros w. exists [FileWrite path content]. unfold write_file.
  destruct (os_open_w P (history w) path);
    [|destruct (encode_error content)];
    split; cbn [snd history record weight]; try reflexivity; lia.
Qed.

Lemma spends_print_value prefix v suffix :
  spends mu 0 (print_value prefix v suffix).
Proof.
  intros w. exists []. rewrite print_value_eq.
  destruct (print_error prefix v suffix);
    (split; [cbn [snd]; now rewrite app_nil_r | simpl; lia]).
Qed.

Lemma spends_requests_post url payload headers timeout :
  spends mu (mu (Post url payload headers timeout))
         (requests_post P url payload headers timeout).
Proof.
  intros w. exists [Post url payload headers timeout]. unfold requests_post.
  destruct (net_post P (history w) url payload headers timeout);
    split; simpl; try reflexivity; lia.
Qed.

(** The measures of interest give no weight to file writes and to commands
    other than the probe, and a fixed weight to each other interaction. *)
Variables per_probe per_second per_post : Z.
Hypothesis probe_nonneg : 0 <= per_probe.
Hypothesis second_nonneg : 0 <= per_second.
Hypothesis post_nonneg : 0 <= per_post.
Hypothesis mu_probe : mu (Exec probe_cmd) = per_probe.
Hypothesis mu_command : forall cmd, cmd <> probe_cmd -> mu (Exec cmd) = 0.
Hypothesis mu_sleep : forall s, 0 <= s -> mu (Sleep s) = s * per_second.
Hypothesis mu_write : forall path content, mu (FileWrite path content) = 0.
Hypothesis mu_post :
  forall url payload headers timeout,
    mu (Post url payload headers timeout) = per_post.

Lemma spends_command cmd check timeout :
  cmd <> probe_cmd -> spends mu 0 (run P cmd check timeout).
Proof.
  intros H. rewrite <- (mu_command cmd H). apply spends_run.
Qed.

Lemma spends_pause s : 0 <= s -> spends mu (s * per_second) (sleep s).
Proof. intros H. rewrite <- (mu_sleep s H). apply spends_sleep. Qed.

Lemma spends_free_then {A B} (m : M A) (k : A -> M B) c :
  spends mu 0 m -> (forall a, spends mu c (k a)) -> 0 <= c ->
  spends mu c (bind m k).
Proof.
  intros Hm Hk Hc. apply spends_le with (c := 0 + c); [|lia].
  apply spends_bind; assumption.
Qed.

Lemma spends_is_connected_to_wifi n :
  spends mu (Z.of_nat n * (per_probe + per_second)) (is_connected_to_wifi P n).
Proof.
  induction n as [|n IH].
  - simpl. apply spends_ret.
  - cbn [is_connected_to_wifi].
    apply spends_le
      with (c := per_probe + (1 * per_second
                              + Z.of_nat n * (per_probe + per_second)));
      [|nia].
    apply spends_bind; [rewrite <- mu_probe; apply spends_run | | nia].
    intros r. destruct (has_inet r).
    + apply spends_le with (c := 0); [apply spends_ret | nia].
    + apply spends_bind; [apply spends_pause; lia | intros _; exact IH | nia].
Qed.

Lemma spends_restore_ap_mode : spends mu 0 (restore_ap_mode P).
Proof.
  unfold restore_ap_mode.
  apply spends_free_then; [apply spends_command; discriminate | intros _ | lia].
  apply spends_free_then; [apply spends_command; discriminate | intros _ | lia].
  rewrite <- (mu_write AP_RESTORED_FILE ""). apply spends_write_file.
Qed.

Lemma spends_restore_then {A} (a : A) :
  spends mu 0 (bind (restore_ap_mode P) (fun _ => ret a)).
Proof.
  apply spends_free_then; [apply spends_restore_ap_mode | | lia].
  intros _. apply spends_ret.
Qed.

Lemma spends_connect_phase :
  spends mu (3 * per_second + 20 * (per_probe + per_second)) (connect_phase P).
Proof.
  unfold connect_phase.
  apply spends_free_then; [apply spends_command; discriminate | intros _ | nia].
  apply spends_free_then; [apply spends_command; discriminate | intros _ | nia].
  apply spends_le
    with (c := 1 * per_second
               + (2 * per_second + 20 * (per_probe + per_second))); [|lia].
  apply spends_bind; [apply spends_pause; lia | intros _ | nia].
  apply spends_free_then; [apply spends_command; discriminate | intros _ | nia].
  apply spends_free_then; [apply spends_command; discriminate | intros _ | nia].
  apply spends_bind; [apply spends_pause; lia | intros _ | nia].
  apply (spends_is_connected_to_wifi 20).
Qed.

Lemma spends_register_phase f : spends mu per_post (register_phase P f).
Proof.
  unfold register_phase.
  apply spends_le with (c := per_post + 0 + 0); [|lia].
  apply spends_try_except; [| | lia].
  - apply spends_bind; [| | lia].
    + rewrite <- (mu_post (EDGE_FINISH_URL P) (edge_payload f) (edge_headers P) 15).
      apply spends_requests_post.
    + intros resp. destruct (negb (fst resp =? 200)).
      * apply spends_restore_then.
      * apply spends_ret.
  - intros e h. destruct (is_RequestException e); [|discriminate].
    intros [= <-]. apply spends_restore_then.
Qed.

Lemma spends_finish_phase : spends mu 0 (finish_phase P).
Proof.
  unfold finish_phase.
  apply spends_free_then; [| intros _ | lia].
  { rewrite <- (mu_write PROVISIONED_FILE "1"). apply spends_write_file. }
  apply spends_free_then; [apply spends_command; discriminate | intros _ | lia].
  apply spends_free_then; [apply spends_command; discriminate | intros _ | lia].
  apply spends_free_then; [apply spends_command; discriminate | intros _ | lia].
  apply spends_ret.
Qed.

Lemma spends_provision_guarded f :
  spends mu (3 * per_second + 20 * (per_probe + per_second) + per_post)
         (provision_guarded P f).
Proof.
  unfold provision_guarded.
  apply spends_le
    with (c := (3 * per_second + 20 * (per_probe + per_second) + per_post) + 0);
    [|lia].
  apply spends_try_except; [| | lia].
  - unfold provision_steps.
    apply spends_bind; [apply spends_connect_phase | | lia].
    intros connected. destruct (negb connected).
    + apply spends_le with (c := 0); [apply spends_restore_then | lia].
    + apply spends_le with (c := per_post + 0); [|lia].
      apply spends_bind; [apply spends_register_phase | | lia].
      intros [r|]; [apply spends_ret | apply spends_finish_phase].
  - intros e h [= <-]. apply spends_restore_then.
Qed.

Lemma spends_provision_prologue req : spends mu 0 (provision_prologue P req).
Proof.
  unfold provision_prologue.
  apply spends_free_then; [| intros got | lia].
  { destruct req; [apply spends_raise | apply spends_ret]. }
  assert (Hget : forall key dflt,
             spends mu 0 (data_get (py_or got (JObj [])) key dflt)).
  { intros key dflt. unfold data_get.
    destruct (py_or got (JObj [])); first [apply spends_ret | apply spends_raise]. }
  apply spends_free_then; [apply Hget | intros token | lia].
  apply spends_free_then; [apply Hget | intros ssid | lia].
  apply spends_free_then; [apply Hget | intros password | lia].
  apply spends_free_then; [apply Hget | intros device_name | lia].
  destruct (negb (truthy (py_and (py_and token ssid) password)));
    [apply spends_ret|].
  apply spends_free_then; [apply spends_print_value | intros _ | lia].
  apply spends_free_then; [apply spends_print_value | intros _ | lia].
  apply spends_free_then; [| intros _ | lia].
  { unfold slice8. destruct token; first [apply spends_ret | apply spends_raise]. }
  apply spends_free_then; [apply spends_print_value | intros _ | lia].
  apply spends_free_then; [| intros _; apply spends_ret | lia].
  rewrite <- (mu_write tmp_path
                (create_wpa_config (fstr P ssid) (fstr P password))).
  apply spends_write_file.
Qed.

Lemma spends_provision req :
  spends mu (3 * per_second + 20 * (per_probe + per_second) + per_post)
         (provision P req).
Proof.
  set (budget := 3 * per_second + 20 * (per_probe + per_second) + per_post).
  assert (Hb : 0 <= budget) by (unfold budget; nia).
  unfold provision.
  apply spends_le with (c := 0 + budget + 0); [|lia].
  apply spends_try_except; [| | lia].
  - apply spends_bind; [apply spends_provision_prologue | | exact Hb].
    intros [r|f];
      [apply spends_le with (c := 0); [apply spends_ret | exact Hb]
      | apply spends_provision_guarded].
  - intros e h [= <-]. apply spends_ret.
Qed.

End Cost.

Lemma spends_sleep_seconds P req :
  spends sleep_seconds 23 (provision P req).
Proof.
  apply spends_le with (c := 3 * 1 + 20 * (0 + 1) + 0); [|lia].
  apply (spends_provision P sleep_seconds 0 1 0); try lia; try reflexivity.
  intros s _. rewrite Z.mul_1_r. reflexivity.
Qed.

Lemma spends_probe_count P req :
  spends probe_count 20 (provision P req).
Proof.
  apply spends_le with (c := 3 * 0 + 20 * (1 + 0) + 0); [|lia].
  apply (spends_provision P probe_count 1 0 0); try lia; try reflexivity.
  - intros cmd Hne. unfold probe_count, is_probe.
    destruct (String.eqb_spec cmd probe_cmd); [contradiction | reflexivity].
  - intros s _. rewrite Z.mul_0_r. reflexivity.
Qed.

Lemma spends_post_count P req :
  spends post_count 1 (provision P req).
Proof.
  apply spends_le with (c := 3 * 0 + 20 * (0 + 0) + 1); [|lia].
  apply (spends_provision P post_count 0 0 1); try lia; try reflexivity.
  intros s _. rewrite Z.mul_0_r. reflexivity.
Qed.

(** X10. One call of the handler is bounded work: in all it sleeps at
    most 23 seconds (1 after stopping the AP, 2 after the reconfigure, 1
    after each negative probe), probes the interface at most 20 times and
    sends at most one registration POST, which it never repeats. *)
Theorem provision_bounded_work P req w :
  exists evs,
    history (snd (provision P req w)) = history w ++ evs
    /\ seconds_slept evs <= 23
    /\ (probes_issued evs <= 20)%nat
    /\ weight post_count evs <= 1.
Proof.
  destruct (spends_sleep_seconds P req w) as (evs & Hh & Hs).
  destruct (spends_probe_count P req w) as (evs2 & Hh2 & Hp).
  destruct (spends_post_count P req w) as (evs3 & Hh3 & Hq).
  rewrite Hh in Hh2, Hh3.
  apply app_inv_head in Hh2, Hh3. subst evs2 evs3.
  exists evs. split; [exact Hh|].
  rewrite weight_seconds_slept in Hs. rewrite weight_probes_issued in Hp.
  repeat split; [exact Hs | lia | exact Hq].
Qed.

(** ** Line feeds in the credentials *)

Lemma text_lines_config_head (ssid rest : string) :
  no_line_feed ssid = true ->
  text_lines
    ("ctrl_interface=DIR=/var/run/wpa_supplicant GROUP=netdev" ++ nl ++
     "update_config=1" ++ nl ++ "country=PH" ++ nl ++ nl ++
     "network={" ++ nl ++
     tab ++ "ssid=" ++ dquote ++ ssid ++ dquote ++ nl ++ rest)%string
  = [ "ctrl_interface=DIR=/var/run/wpa_supplicant GROUP=netdev";
      "update_config=1"; "country=PH"; ""; "network={";
      (tab ++ "ssid=" ++ dquote ++ ssid ++ dquote)%string ]
    ++ text_lines rest.
Proof.
  intros Hs.
  rewrite !text_lines_line by reflexivity.
  change (nl ++ "network={" ++ nl ++ tab ++ "ssid=" ++ dquote ++ ssid
             ++ dquote ++ nl ++ rest)%string
    with ("" ++ nl ++ "network={" ++ nl ++ tab ++ "ssid=" ++ dquote ++ ssid
             ++ dquote ++ nl ++ rest)%string.
  rewrite !text_lines_line by reflexivity.
  replace (tab ++ "ssid=" ++ dquote ++ ssid ++ dquote ++ nl ++ rest)%string
    with ((tab ++ "ssid=" ++ dquote ++ ssid ++ dquote) ++ nl ++ rest)%string
    by (rewrite !string_app_assoc; reflexivity).
  rewrite text_lines_line
    by (rewrite !no_line_feed_app, Hs; reflexivity).
  reflexivity.
Qed.

(** X14. A line feed in the password is written as it is: the psk line
    ends there, and what follows up to the next line feed becomes a line of
    its own in the generated file, directly after the cut psk line and
    ahead of the file's own closing lines.  A password can thus add
    arbitrary lines to the network block. *)
Theorem line_feed_in_password_adds_a_line (ssid a line b : string) :
  no_line_feed ssid = true ->
  no_line_feed a = true ->
  no_line_feed line = true ->
  text_lines (create_wpa_config ssid (a ++ nl ++ line ++ nl ++ b))
  = [ "ctrl_interface=DIR=/var/run/wpa_supplicant GROUP=netdev";
      "update_config=1"; "country=PH"; ""; "network={";
      (tab ++ "ssid=" ++ dquote ++ ssid ++ dquote)%string;
      (tab ++ "psk=" ++ dquote ++ a)%string;
      line ]
    ++ text_lines (b ++ dquote ++ nl ++ tab ++ "scan_ssid=1" ++ nl
                     ++ "}" ++ nl)%string.
Proof.
  intros Hs Ha Hl. unfold create_wpa_config.
  rewrite (text_lines_config_head ssid _ Hs).
  replace (tab ++ "psk=" ++ dquote ++ (a ++ nl ++ line ++ nl ++ b) ++ dquote
             ++ nl ++ tab ++ "scan_ssid=1" ++ nl ++ "}" ++ nl)%string
    with ((tab ++ "psk=" ++ dquote ++ a) ++ nl ++ line ++ nl
            ++ (b ++ dquote ++ nl ++ tab ++ "scan_ssid=1" ++ nl ++ "}" ++ nl))%string
    by (rewrite !string_app_assoc; reflexivity).
  rewrite text_lines_line
    by (rewrite !no_line_feed_app, Ha; reflexivity).
  rewrite (text_lines_line line _ Hl).
  reflexivity.
Qed.

(** ** The probe *)

Lemma prefix_iff (p s : string) :
  String.prefix p s = true <-> exists b, s = (p ++ b)%string.
Proof.
  revert s. induction p as [|x p IH]; intros s.
  - split; [intros _; exists s; reflexivity | intros _; destruct s; reflexivity].
  - destruct s as [|y s]; simpl.
    + split; [discriminate | intros [b Hb]; discriminate Hb].
    + destruct (ascii_dec x y) as [->|Hne].
      * rewrite IH. split.
        -- intros [b ->]. exists b. reflexivity.
        -- intros [b Hb]. rewrite append_String in Hb.
           injection Hb as ->. exists b. reflexivity.
      * split; [discriminate|].
        intros [b Hb]. rewrite append_String in Hb.
        injection Hb as Hxy _. congruence.
Qed.

Lemma str_in_iff (needle hay : string) :
  str_in needle hay = true
  <-> exists a b, hay = (a ++ needle ++ b)%string.
Proof.
  induction hay as [|c hay IH].
  - cbn [str_in]. rewrite orb_false_r, prefix_iff. split.
    + intros [b Hb]. exists EmptyString, b. exact Hb.
    + intros (a & b & Hab). destruct a as [|x a].
      * exists b. exact Hab.
      * rewrite append_String in Hab. discriminate Hab.
  - cbn [str_in]. rewrite orb_true_iff, prefix_iff, IH. split.
    + intros [[b Hb] | (a & b & Hab)].
      * exists EmptyString, b. exact Hb.
      * exists (String c a), b. rewrite append_String. now rewrite Hab.
    + intros (a & b & Hab). destruct a as [|x a].
      * left. exists b. exact Hab.
      * right. rewrite append_String in Hab. injection Hab as _ ->.
        exists a, b. reflexivity.
Qed.

(** X15. One round of the poll reports a connection exactly when the
    probe command ran to its end and its standard output contains the text
    "inet " somewhere.  The exit status and the error output play no part,
    and a probe that could not be run at all counts as negative. *)
Theorem single_probe_verdict P w :
  fst (is_connected_to_wifi P 1 w) = Ok true
  <-> exists r a b,
        os_exec P (history w) probe_cmd = Exited r
        /\ stdout r = (a ++ "inet " ++ b)%string.
Proof.
  cbn [is_connected_to_wifi]. unfold bind at 1.
  destruct (run_probe P w) as (res & -> & Hres). rewrite Hres.
  unfold address_seen.
  destruct (os_exec P (history w) probe_cmd) as [r|e].
  - destruct (str_in "inet " (stdout r)) eqn:Hin.
    + assert (Hne : String.eqb (stdout r) "" = false).
      { apply str_in_iff in Hin as (a & b & ->).
        destruct a; reflexivity. }
      rewrite Hne. simpl. split; [intros _ | reflexivity].
      apply str_in_iff in Hin as (a & b & Hab). exists r, a, b. auto.
    + rewrite andb_false_r. simpl. split; [discriminate|].
      intros (r' & a & b & [= <-] & Hab).
      assert (str_in "inet " (stdout r) = true)
        by (apply str_in_iff; eauto).
      congruence.
  - simpl. split; [discriminate|].
    intros (r' & a & b & Hex & _). discriminate Hex.
Qed.

(** ** The registration payload *)

Lemma provision_guarded_extends P f :
  keeps (extends_by (guarded_event P f)) (provision_guarded P f).
Proof.
  apply (keeps_provision_guarded P _ (extends_by_refl _) (extends_by_trans _)
           (guarded_event P f)).
  - intros e w. apply extends_by_record.
  - intros path content stored w. apply extends_by_store.
  - auto.
Qed.

(** X16. Whenever an accepted request leads to a registration POST, that
    POST goes to the configured URL with a timeout of 15 seconds, carries
    the bearer header built from the service key, and its body holds
    exactly the four fields of the request as they were received, the
    password in clear among them. *)
Theorem registration_payload_is_the_request P req w f w0 :
  provision_prologue P req w = (Ok (inr f), w0) ->
  exists evs,
    history (snd (provision P req w)) = history w0 ++ evs
    /\ forall url payload headers timeout,
         In (Post url payload headers timeout) evs ->
         url = EDGE_FINISH_URL P
         /\ payload = [("token", f_token f); ("ssid", f_ssid f);
                       ("password", f_password f);
                       ("device_name", f_device_name f)]
         /\ headers = [("Content-Type", "application/json");
                       ("Authorization", ("Bearer " ++ SERVICE_ROLE_KEY P)%string)]
         /\ timeout = 15.
Proof.
  intros Hp.
  destruct (provision_guarded_extends P f w0) as (evs & Hh & Hall).
  exists evs. split.
  - rewrite provision_eq, Hp.
    destruct (provision_guarded P f w0) as [[r|e] w1]; exact Hh.
  - intros url payload headers timeout Hin.
    exact (proj1 (List.Forall_forall (guarded_event P f) evs) Hall _ Hin).
Qed.

(** ** The further theorems at work on the sample runs *)

(** X2 on a device whose stop, cp and reconfigure commands all exit with
    status 1: the run is the one of the device on which they succeed. *)
Lemma command_outcomes_witness :
  os_exec (failing_commands_rig 2 (Responded 200 "ok") opens_everything) []
          ("cp " ++ tmp_path ++ " /etc/wpa_supplicant/wpa_supplicant.conf")%string
    = Exited (Completed 1 "" "command failed")
  /\ provision happy_rig sample_request boot
     = provision (failing_commands_rig 2 (Responded 200 "ok") opens_everything)
                 sample_request boot.
Proof.
  split; [reflexivity|].
  apply (command_outcomes_do_not_matter happy_rig
           (failing_commands_rig 2 (Responded 200 "ok") opens_everything)
           sample_request boot).
  - intros h. reflexivity.
  - reflexivity.
  - reflexivity.
  - reflexivity.
  - reflexivity.
Defined.

(** X4 on a request whose token is the number 12345678. *)
Lemma unsliceable_token_witness :
  provision_prologue happy_rig numeric_token_request boot
  = (Raise (Exn TypeError "'int' object is not subscriptable"), boot)
  /\ provision happy_rig numeric_token_request boot
     = (Ok (Response [("ok", JBool false);
                      ("error", JStr "Invalid request");
                      ("detail", JStr "'int' object is not subscriptable")]
                     400), boot).
Proof.
  apply (unsliceable_token_is_invalid_request happy_rig
           [("token", JNum 12345678); ("ssid", JStr "HomeNet");
            ("password", JStr "secret1")] boot).
  - left. reflexivity.
  - reflexivity.
  - reflexivity.
  - reflexivity.
  - vm_compute; reflexivity.
  - vm_compute; reflexivity.
Defined.

(** X8 on a provisioned device that fails a new attempt for want of an
    address: the marker is still there. *)
Lemma provision_never_removes_witness :
  In PROVISIONED_FILE own_files
  /\ is_Some (files (World {[PROVISIONED_FILE := "1"]} []) !! PROVISIONED_FILE)
  /\ is_Some (files (snd (provision no_wifi_rig sample_request
                            (World {[PROVISIONED_FILE := "1"]} [])))
              !! PROVISIONED_FILE).
Proof.
  assert (Hin : In PROVISIONED_FILE own_files) by (right; right; left; reflexivity).
  assert (Hsome : is_Some (files (World {[PROVISIONED_FILE := "1"]} [])
                             !! PROVISIONED_FILE))
    by (exists "1"; vm_compute; reflexivity).
  split; [exact Hin|]. split; [exact Hsome|].
  exact (provision_never_removes_its_files no_wifi_rig sample_request
           (World {[PROVISIONED_FILE := "1"]} []) PROVISIONED_FILE Hin Hsome).
Defined.

(** X9 on the device that never gets an address: the attempt fails and the
    configuration with the password is still there. *)
Lemma join_configuration_witness :
  provision_prologue no_wifi_rig sample_request boot
    = (Ok (inr sample_fields), accepted no_wifi_rig)
  /\ files (snd (provision no_wifi_rig sample_request boot)) !! tmp_path
     = Some (create_wpa_config "HomeNet" "secret1").
Proof.
  split; [vm_compute; reflexivity|].
  apply (join_configuration_stays_on_disk no_wifi_rig sample_request boot
           sample_fields (accepted no_wifi_rig)).
  vm_compute; reflexivity.
Defined.

(** X11 on a provisioned device that is asked for its status, fails a new
    attempt for want of an address, and is asked again. *)
Lemma provisioned_forever_witness :
  path_exists PROVISIONED_FILE (World {[PROVISIONED_FILE := "1"]} []) = true
  /\ exists rs w',
       serve no_wifi_rig
             [GetProvisionStatus; PostProvision sample_request; GetHealth;
              GetProvisionStatus]
             (World {[PROVISIONED_FILE := "1"]} [])
       = (Ok rs, w')
       /\ length rs = 4%nat
       /\ path_exists PROVISIONED_FILE w' = true
       /\ forall i,
            [GetProvisionStatus; PostProvision sample_request; GetHealth;
             GetProvisionStatus] !! i = Some GetProvisionStatus ->
            rs !! i = Some (status_reply true).
Proof.
  split; [vm_compute; reflexivity|].
  apply (provisioned_once_provisioned_forever no_wifi_rig
           [GetProvisionStatus; PostProvision sample_request; GetHealth;
            GetProvisionStatus]
           (World {[PROVISIONED_FILE := "1"]} [])).
  vm_compute; reflexivity.
Defined.

(** X14 on a password that closes its own quote and goes on with a line
    of its own. *)
Lemma line_feed_in_password_witness :
  no_line_feed "HomeNet" = true
  /\ no_line_feed ("secret1" ++ dquote)%string = true
  /\ no_line_feed (tab ++ "key_mgmt=NONE")%string = true
  /\ text_lines
       (create_wpa_config "HomeNet"
          (("secret1" ++ dquote) ++ nl ++ (tab ++ "key_mgmt=NONE") ++ nl
             ++ (tab ++ "x=" ++ dquote))%string)
     = [ "ctrl_interface=DIR=/var/run/wpa_supplicant GROUP=netdev";
         "update_config=1"; "country=PH"; ""; "network={";
         (tab ++ "ssid=" ++ dquote ++ "HomeNet" ++ dquote)%string;
         (tab ++ "psk=" ++ dquote ++ "secret1" ++ dquote)%string;
         (tab ++ "key_mgmt=NONE")%string ]
       ++ text_lines ((tab ++ "x=" ++ dquote) ++ dquote ++ nl ++ tab
                        ++ "scan_ssid=1" ++ nl ++ "}" ++ nl)%string.
Proof.
  split; [reflexivity|]. split; [reflexivity|]. split; [reflexivity|].
  apply (line_feed_in_password_adds_a_line "HomeNet"
           ("secret1" ++ dquote)%string (tab ++ "key_mgmt=NONE")%string
           (tab ++ "x=" ++ dquote)%string);
    reflexivity.
Defined.

(** X16 on the successful run. *)
Lemma registration_payload_witness :
  provision_prologue happy_rig sample_request boot
    = (Ok (inr sample_fields), accepted happy_rig)
  /\ exists evs,
       history (snd (provision happy_rig sample_request boot))
       = history (accepted happy_rig) ++ evs
       /\ forall url payload headers timeout,
            In (Post url payload headers timeout) evs ->
            url = EDGE_FINISH_URL happy_rig
            /\ payload = [("token", f_token sample_fields);
                          ("ssid", f_ssid sample_fields);
                          ("password", f_password sample_fields);
                          ("device_name", f_device_name sample_fields)]
            /\ headers = [("Content-Type", "application/json");
                          ("Authorization",
                           ("Bearer " ++ SERVICE_ROLE_KEY happy_rig)%string)]
            /\ timeout = 15.
Proof.
  split; [vm_compute; reflexivity|].
  apply (registration_payload_is_the_request happy_rig sample_request boot
           sample_fields (accepted happy_rig)).
  vm_compute; reflexivity.
Defined.
